(** * RANGAN: the encode / decode pipeline around the adversarial training loop

    A shallow embedding of [src/RANGAN.py].  The script parses MIDI files
    into string tokens, builds an integer vocabulary, cuts the token list
    into fixed-length windows normalised to [-1, 1], trains a GAN and
    decodes the generator's output back into notes and chords.

    Modelling conventions.
    - Python [str] is [string] (ASCII tokens), Python [int] is [Z] or [nat]
      where the value is a length or an index that cannot be negative.
    - A Python [float] is the rational number it denotes, in [Q].  The
      normalisation of indices is computed exactly; the addition that
      accumulates offsets is a field of [settings], so that what is proved
      about offsets holds for binary64 addition ([Binary64.add]) as well
      as for exact arithmetic.
    - [dict] is a [gmap], [set] a [gset]; [sorted] is a merge sort for the
      lexicographic order on strings.
    - A raised exception is the [Raise] branch of [result]; nothing in the
      script but one bare [except] ever catches one.
    - music21, numpy and keras are outside the repository.  Their calls are
      fields of the records [music21] and [keras]; the objects they build
      are plain data recording the constructor arguments. *)

From Stdlib Require Import QArith Qround Lqa Ascii DecimalString SpecFloat.
From stdpp Require Import gmap strings list fin_maps sorting.

Local Open Scope Z_scope.
Local Open Scope nat_scope.

(** ** Python values, exceptions and containers *)

Module Py.

Inductive key : Type :=
| KStr (s : string)
| KInt (z : Z).

Inductive exn : Type :=
| KeyError (k : key)
| IndexError
| ValueError (msg : string)
| ZeroDivisionError
| LibraryError (msg : string).

Inductive result (A : Type) : Type :=
| Ok (a : A)
| Raise (e : exn).
Arguments Ok {A} a.
Arguments Raise {A} e.

Definition bind {A B} (r : result A) (k : A → result B) : result B :=
  match r with
  | Ok a => k a
  | Raise e => Raise e
  end.

Definition is_ok {A} (r : result A) : bool :=
  match r with Ok _ => true | Raise _ => false end.

(** [try: body  except: handler] with a bare [except]. *)
Definition try_except {A} (body : result A) (handler : result A) : result A :=
  match body with
  | Ok a => Ok a
  | Raise _ => handler
  end.

(** [for x in xs: acc = body(acc, x)], stopping at the first exception. *)
Fixpoint for_each {A S} (xs : list A) (body : S → A → result S) (acc : S)
  : result S :=
  match xs with
  | [] => Ok acc
  | x :: rest =>
      match body acc x with
      | Ok acc' => for_each rest body acc'
      | Raise e => Raise e
      end
  end.

(** [[f(x) for x in xs]] where [f] may raise. *)
Fixpoint comprehension {A B} (f : A → result B) (xs : list A)
  : result (list B) :=
  match xs with
  | [] => Ok []
  | x :: rest =>
      match f x with
      | Ok y =>
          match comprehension f rest with
          | Ok ys => Ok (y :: ys)
          | Raise e => Raise e
          end
      | Raise e => Raise e
      end
  end.

(** [set(xs)] and [sorted(s)] on strings. *)
Definition set (xs : list string) : gset string := list_to_set xs.

Definition sorted (s : gset string) : list string :=
  merge_sort String.le (elements s).

(** [enumerate(xs)] yields the pairs [(number, x)]. *)
Definition enumerate {A} (xs : list A) : list (nat * A) := imap pair xs.

(** [dict(pairs)]: pairs are inserted left to right, a later pair
    overrides an earlier one with the same key. *)
Definition dict `{Countable K} {V} (pairs : list (K * V)) : gmap K V :=
  fold_left (λ m kv, <[kv.1 := kv.2]> m) pairs ∅.

(** [xs[i:j]] for [0 <= i <= j]. *)
Definition slice {A} (xs : list A) (i j : nat) : list A :=
  take (j - i) (drop i xs).

(** [range(0, n, 1)]. *)
Definition range (n : nat) : list nat := seq 0 n.

(** [xs[i]] for [0 <= i]. *)
Definition getitem {A} (xs : list A) (i : nat) : result A :=
  match xs !! i with
  | Some x => Ok x
  | None => Raise IndexError
  end.

(** [d[k]] on a dict. *)
Definition lookup_str {V} (d : gmap string V) (k : string) : result V :=
  match d !! k with
  | Some v => Ok v
  | None => Raise (KeyError (KStr k))
  end.

Definition lookup_int {V} (d : gmap Z V) (k : Z) : result V :=
  match d !! k with
  | Some v => Ok v
  | None => Raise (KeyError (KInt k))
  end.

(** [int(x)] on a float: truncation towards zero. *)
Definition int (x : Q) : Z := Z.quot (Qnum x) (Z.pos (Qden x)).

(** [str(n)] on a non-negative int. *)
Definition str (n : nat) : string := NilZero.string_of_uint (Nat.to_uint n).

(** [sep.join(parts)]. *)
Definition join (sep : string) (parts : list string) : string :=
  String.concat sep parts.

(** [s[0]] on a string: its first character, as a string. *)
Definition first_char (s : string) : result string :=
  match s with
  | EmptyString => Raise IndexError
  | String c _ => Ok (String c EmptyString)
  end.

Definition is_dot (c : ascii) : bool := Ascii.eqb c "."%char.

Definition digit_value (c : ascii) : option Z :=
  let n := Z.of_N (N_of_ascii c) in
  if ((48 <=? n) && (n <=? 57))%Z then Some (n - 48)%Z else None.

(** ['.' in s]. *)
Fixpoint contains_dot (s : string) : bool :=
  match s with
  | EmptyString => false
  | String c rest => is_dot c || contains_dot rest
  end.

Fixpoint all_digits (s : string) : bool :=
  match s with
  | EmptyString => true
  | String c rest => bool_decide (is_Some (digit_value c)) && all_digits rest
  end.

(** [s.isdigit()]: at least one character and all of them digits. *)
Definition isdigit (s : string) : bool :=
  match s with
  | EmptyString => false
  | _ => all_digits s
  end.

(** [s.split('.')]. *)
Fixpoint split_dot (s : string) : list string :=
  match s with
  | EmptyString => [EmptyString]
  | String c rest =>
      if is_dot c then EmptyString :: split_dot rest
      else match split_dot rest with
           | piece :: pieces => String c piece :: pieces
           | [] => [String c EmptyString]
           end
  end.

Fixpoint digits_value (acc : Z) (s : string) : option Z :=
  match s with
  | EmptyString => Some acc
  | String c rest =>
      match digit_value c with
      | Some d => digits_value (10 * acc + d)%Z rest
      | None => None
      end
  end.

(** [int(s)] on a string.  Exact on the empty string and on strings of
    decimal digits, the only arguments it receives in this script. *)
Definition int_of_str (s : string) : result Z :=
  match s with
  | EmptyString => Raise (ValueError "invalid literal for int()")
  | _ =>
      match digits_value 0 s with
      | Some z => Ok z
      | None => Raise (ValueError "invalid literal for int()")
      end
  end.

End Py.

Import Py.

(** [x ← r; k] sequences two statements: an exception of [r] skips [k]. *)
Global Instance result_bind : MBind Py.result := λ A B k r, Py.bind r k.
Global Instance result_ret : MRet Py.result := λ A a, Py.Ok a.

(** ** Binary64 arithmetic on the rationals that floats denote *)

Module Binary64.

Definition prec : Z := 53.
Definition emax : Z := 1024.

(** The float nearest to a rational (round to nearest, ties to even). *)
Definition of_Q (q : Q) : spec_float :=
  match Qnum q with
  | Z0 => S754_zero false
  | Zpos n =>
      SFdiv prec emax (S754_finite false n 0) (S754_finite false (Qden q) 0)
  | Zneg n =>
      SFdiv prec emax (S754_finite true n 0) (S754_finite false (Qden q) 0)
  end.

(** The rational a finite float denotes.  Infinities and NaN denote no
    rational and are sent to 0: [add] and [mul] below are the binary64
    operations as long as their result is finite. *)
Definition to_Q (x : spec_float) : Q :=
  match x with
  | S754_finite sign m e =>
      let n := if sign then Zneg m else Zpos m in
      match e with
      | Z0 => inject_Z n
      | Zpos k => inject_Z (n * 2 ^ Zpos k)
      | Zneg k => Qmake n (2 ^ k)
      end
  | _ => 0%Q
  end.

(** [x + y] and [x * y] on floats. *)
Definition add (x y : Q) : Q := Qred (to_Q (SFadd prec emax (of_Q x) (of_Q y))).


End Binary64.

(** ** Module-level settings ([length], [offset_increment]) *)

Record settings : Type := {
  length_ : nat;            (* [length], the window length, 200 by default *)
  offset_increment : Q;     (* 0.5 by default *)
  (* the addition of [offset += offset_increment]: [Binary64.add] in
     CPython, [Qplus] in exact arithmetic *)
  float_add : Q → Q → Q
}.

Definition default_settings : settings :=
  {| length_ := 200; offset_increment := 1 # 2; float_add := Binary64.add |}.

(** ** The music21 objects the script reads and builds *)

(** What iterating over [notes_to_parse] yields: a [note.Note] (only
    [str(element.pitch)] is read), a [chord.Chord] (only [normalOrder], a
    list of pitch classes, is read), or anything else (rests, instruments,
    tempo marks, ...). *)
Inductive element : Type :=
| Note (pitch : string)
| Chord (normalOrder : list nat)
| Other.

(** The calls into music21 made by [get_notes], for an abstract type of
    parsed scores.  [first_part_recurse] stands for the two statements of
    the [try] body: [partitionByInstrument(midi)] followed by
    [s2.parts[0].recurse()]. *)
Record music21 (Score : Type) : Type := {
  converter_parse : string → Py.result Score;
  first_part_recurse : Score → Py.result (list element);
  flat_notes : Score → Py.result (list element)
}.
Arguments converter_parse {Score} _ _.
Arguments first_part_recurse {Score} _ _.
Arguments flat_notes {Score} _ _.

(** The argument of [note.Note(...)]: a pitch name or a MIDI number. *)
Inductive pitch_arg : Type :=
| PitchName (name : string)
| PitchNumber (number : Z).

Inductive instrument : Type := Piano.

Record new_note : Type := {
  note_pitch : pitch_arg;
  note_offset : Q;                           (* 0 unless assigned *)
  storedInstrument : option instrument
}.

Record new_chord : Type := {
  chord_notes : list new_note;
  chord_offset : Q
}.

Inductive output_note : Type :=
| OutNote (n : new_note)
| OutChord (c : new_chord).

Definition offset_of (o : output_note) : Q :=
  match o with
  | OutNote n => note_offset n
  | OutChord c => chord_offset c
  end.

(** What [create_midi] hands to music21 for writing: the path and the
    elements of the stream.  The write itself, like the validation of a
    pitch name by [note.Note], is music21's and is not modelled. *)
Record midi_file : Type := {
  midi_path : string;
  midi_stream : list output_note
}.

(** ** The vocabulary (lines 54-57 and 259-260) *)

Definition pitchnames (notes : list string) : list string :=
  Py.sorted (Py.set notes).

Definition note_to_int (notes : list string) : gmap string nat :=
  Py.dict ((λ '(number, note), (note, number)) <$> Py.enumerate (pitchnames notes)).

Definition int_to_note (notes : list string) : gmap Z string :=
  Py.dict ((λ '(number, note), (Z.of_nat number, note)) <$> Py.enumerate (pitchnames notes)).

(** [n_vocab = len(set(notes))] in [train]. *)
Definition n_vocab_of (notes : list string) : nat := size (Py.set notes).

(** The rank of a token: how many distinct tokens are strictly below it. *)
Definition strictly_below (t s : string) : Prop := String.le s t ∧ s ≠ t.

Definition rank (notes : list string) (t : string) : nat :=
  length (filter (strictly_below t) (elements (Py.set notes))).

(** ** [get_notes] (lines 20-45) *)

Section get_notes.
Context {Score : Type} (m21 : music21 Score).

(** Lines 27-37: parse the file, then take the first instrument part, or
    the flat notes when that raises. *)
Definition notes_to_parse (file : string) : Py.result (list element) :=
  midi ← converter_parse m21 file;
  Py.try_except (first_part_recurse m21 midi) (flat_notes m21 midi).

(** Lines 39-43: one iteration of the loop over the elements. *)
Definition append_token (notes : list string) (element : element) : list string :=
  match element with
  | Note pitch => notes ++ [pitch]
  | Chord normalOrder => notes ++ [Py.join "." (Py.str <$> normalOrder)]
  | Other => notes
  end.

(** Lines 27-43: one iteration of the loop over the files. *)
Definition scan_file (notes : list string) (file : string)
  : Py.result (list string) :=
  elements ← notes_to_parse file;
  mret (fold_left append_token elements notes).

(** [files] is what [glob.glob] returned. *)
Definition get_notes (files : list string) : Py.result (list string) :=
  Py.for_each files scan_file [].
End get_notes.

(** ** [prepare_sequences] (lines 49-78) *)

(** Lines 64-67: one iteration of the loop over the window starts. *)
Definition encode_window (sequence_length : nat) (notes : list string)
    (note_to_int : gmap string nat)
    (acc : list (list nat) * list nat) (i : nat)
  : Py.result (list (list nat) * list nat) :=
  let network_input := acc.1 in
  let network_output := acc.2 in
  let sequence_in := Py.slice notes i (i + sequence_length) in
  sequence_out ← Py.getitem notes (i + sequence_length);
  codes ← Py.comprehension (Py.lookup_str note_to_int) sequence_in;
  code ← Py.lookup_str note_to_int sequence_out;
  mret (network_input ++ [codes], network_output ++ [code]).

(** Lines 51-67: the windows and their successors, as integer codes.
    When [len(notes) - sequence_length] is negative the range is empty, as
    it is for the truncated difference. *)
Definition encode_windows (s : settings) (notes : list string)
  : Py.result (list (list nat) * list nat) :=
  let sequence_length := length_ s in
  let note_to_int := note_to_int notes in
  Py.for_each (Py.range (length notes - sequence_length))
    (encode_window sequence_length notes note_to_int)
    ([], []).

(** [np.reshape(network_input, (n_patterns, sequence_length, 1))]: every row
    must have [sequence_length] entries; the trailing axis of size one is
    left implicit. *)
Definition reshape (rows : list (list nat)) (n_patterns sequence_length : nat)
  : Py.result (list (list nat)) :=
  if bool_decide (length rows = n_patterns ∧
                  Forall (λ row, length row = sequence_length) rows)
  then Py.Ok rows
  else Py.Raise (Py.ValueError "cannot reshape array").

(** Line 75: [(k - float(n_vocab) / 2) / (float(n_vocab) / 2)]. *)
Definition normalize (n_vocab : nat) (k : nat) : Q :=
  (inject_Z (Z.of_nat k) - inject_Z (Z.of_nat n_vocab) / 2)
  / (inject_Z (Z.of_nat n_vocab) / 2).

(** The same, broadcast over the whole array. *)
Definition normalize_array (n_vocab : nat) (rows : list (list nat)) : list (list Q) :=
  map (map (normalize n_vocab)) rows.

(** ** The calls into numpy, keras and matplotlib *)

Record keras : Type := {
  (* [np_utils.to_categorical(network_output)] *)
  to_categorical : list nat → Py.result (list (list nat));
  (* [np.random.randint(0, high, batch_size)] drawn in epoch [epoch] *)
  randint : ∀ (epoch high batch_size : nat), Py.result (list nat);
  (* lines 226-240 of epoch [epoch]: the noise, [generator.predict] and the
     three [train_on_batch] calls; yields [(d_loss[0], d_loss[1], g_loss)] *)
  train_on_batches : ∀ (epoch : nat) (real_seqs : list (list Q)), Py.result (Q * Q * Q);
  (* [self.generator.predict(noise)[0]] in [generate] *)
  predictions_0 : list Q;
  (* the pyplot calls of [plot_loss] *)
  savefig : ∀ (disc_loss gen_loss : list Q), Py.result unit
}.

Definition prepare_sequences (k : keras) (s : settings)
    (notes : list string) (n_vocab : nat)
  : Py.result (list (list Q) * list (list nat)) :=
  let sequence_length := length_ s in
  encoded ← encode_windows s notes;
  let network_input := encoded.1 in
  let network_output := encoded.2 in
  let n_patterns := length network_input in
  network_input ← reshape network_input n_patterns sequence_length;
  let network_input := normalize_array n_vocab network_input in
  network_output ← to_categorical k network_output;
  mret (network_input, network_output).

(** ** [create_midi] (lines 81-112) *)

Record midi_state : Type := {
  offset : Q;
  output_notes : list output_note
}.

Definition piano_note (p : pitch_arg) (at_offset : Q) : new_note :=
  {| note_pitch := p; note_offset := at_offset; storedInstrument := Some Piano |}.

(** Lines 89-109: one iteration of the loop over [prediction_output]. *)
Definition create_midi_step (s : settings) (st : midi_state) (item : string)
  : Py.result midi_state :=
  pattern ← Py.first_char item;
  new ←
    (if Py.contains_dot pattern || Py.isdigit pattern then
       let notes_in_chord := Py.split_dot pattern in
       notes ← Py.comprehension
                 (λ current_note,
                    number ← Py.int_of_str current_note;
                    mret (piano_note (PitchNumber number) 0))
                 notes_in_chord;
       mret (OutChord {| chord_notes := notes; chord_offset := offset st |})
     else
       mret (OutNote (piano_note (PitchName pattern) (offset st))));
  mret {| offset := float_add s (offset st) (offset_increment s);
          output_notes := output_notes st ++ [new] |}.

(** The loop, keeping the state reached when an iteration raises. *)
Fixpoint create_midi_loop (s : settings) (st : midi_state)
    (prediction_output : list string) : midi_state * option Py.exn :=
  match prediction_output with
  | [] => (st, None)
  | item :: rest =>
      match create_midi_step s st item with
      | Py.Ok st' => create_midi_loop s st' rest
      | Py.Raise e => (st, Some e)
      end
  end.

Definition create_midi_init : midi_state :=
  {| offset := 0; output_notes := [] |}.

Definition create_midi (s : settings) (prediction_output : list string)
    (filename : string) : Py.result midi_file :=
  match create_midi_loop s create_midi_init prediction_output with
  | (st, None) =>
      Py.Ok {| midi_path := filename +:+ ".mid"; midi_stream := output_notes st |}
  | (_, Some e) => Py.Raise e
  end.

(** ** The [GAN] class: [generate], [plot_loss], [train] *)

Record GAN : Type := {
  seq_length : nat;
  disc_loss : list Q;
  gen_loss : list Q
}.

(** Line 266: [x * 242 + 242]. *)
Definition denormalize (x : Q) : Q := (x * 242 + 242)%Q.

Definition generate (k : keras) (s : settings) (input_notes : list string)
  : Py.result midi_file :=
  let notes := input_notes in
  let int_to_note := int_to_note notes in
  let predictions := predictions_0 k in
  let pred_notes := denormalize <$> predictions in
  pred_notes ← Py.comprehension (λ x, Py.lookup_int int_to_note (Py.int x)) pred_notes;
  create_midi s pred_notes "static/ganOutputs/ganOutput".

Definition plot_loss (k : keras) (self : GAN) : Py.result unit :=
  savefig k (disc_loss self) (gen_loss self).

(** The stages of [train], recorded when they are entered. *)
Inductive stage : Type :=
| CorpusScan
| VocabularyBuild
| SequenceWindowing
| TrainingEpoch (epoch : nat)
| Sampling
| LossPlot.

(** A run: the stages entered so far, and the value or the exception. *)
Record run (A : Type) : Type := Run {
  entered : list stage;
  outcome : Py.result A
}.
Arguments Run {A} _ _.
Arguments entered {A} _.
Arguments outcome {A} _.

Global Instance run_ret : MRet run := λ A a, Run [] (Py.Ok a).
Global Instance run_bind : MBind run := λ A B f r,
  match outcome r with
  | Py.Ok a => Run (entered r ++ entered (f a)) (outcome (f a))
  | Py.Raise e => Run (entered r) (Py.Raise e)
  end.

Definition enter {A} (st : stage) (body : Py.result A) : run A := Run [st] body.

Fixpoint for_each_run {A S} (xs : list A) (body : S → A → run S) (acc : S)
  : run S :=
  match xs with
  | [] => mret acc
  | x :: rest => acc' ← body acc x; for_each_run rest body acc'
  end.

Section train.
Context {Score : Type} (m21 : music21 Score) (k : keras) (s : settings).
Context (files : list string).

(** Lines 219-246: one epoch. *)
Definition train_epoch (X_train : list (list Q)) (batch_size sample_interval : nat)
    (self : GAN) (epoch : nat) : Py.result GAN :=
  idx ← randint k epoch (length X_train) batch_size;
  real_seqs ← Py.comprehension (Py.getitem X_train) idx;
  losses ← train_on_batches k epoch real_seqs;
  let d_loss_0 := losses.1.1 in
  let g_loss := losses.2 in
  if bool_decide (sample_interval = 0) then Py.Raise Py.ZeroDivisionError
  else if bool_decide (epoch `mod` sample_interval = 0) then
    mret {| seq_length := seq_length self;
            disc_loss := disc_loss self ++ [d_loss_0];
            gen_loss := gen_loss self ++ [g_loss] |}
  else mret self.

Definition train (self : GAN) (epochs batch_size sample_interval : nat)
  : run (GAN * midi_file) :=
  notes ← enter CorpusScan (get_notes m21 files);
  n_vocab ← enter VocabularyBuild (Py.Ok (n_vocab_of notes));
  prepared ← enter SequenceWindowing (prepare_sequences k s notes n_vocab);
  let X_train := prepared.1 in
  self ← for_each_run (Py.range epochs)
           (λ self epoch,
              enter (TrainingEpoch epoch)
                (train_epoch X_train batch_size sample_interval self epoch))
           self;
  written ← enter Sampling (generate k s notes);
  _ ← enter LossPlot (plot_loss k self);
  mret (self, written).

(** The order the pipeline is meant to follow. *)
Definition pipeline (epochs : nat) : list stage :=
  [CorpusScan; VocabularyBuild; SequenceWindowing]
  ++ (TrainingEpoch <$> Py.range epochs)
  ++ [Sampling; LossPlot].
End train.

(** ** Specifications the claims are stated against *)

(** The token an element contributes, if any. *)
Definition token_of (e : element) : option string :=
  match e with
  | Note pitch => Some pitch
  | Chord normalOrder => Some (Py.join "." (Py.str <$> normalOrder))
  | Other => None
  end.

Definition tokens_of (elements : list element) : list string := omap token_of elements.

(** The integer code of a token of the corpus. *)
Definition code_of (notes : list string) (t : string) : nat :=
  default 0 (note_to_int notes !! t).

(** The codes of the window that starts at [i], and of its successor. *)
Definition window_codes (s : settings) (notes : list string) (i : nat) : list nat :=
  code_of notes <$> Py.slice notes i (i + length_ s).

Definition successor_code (s : settings) (notes : list string) (i : nat) : nat :=
  code_of notes (default EmptyString (notes !! (i + length_ s))).

(** What decoding an item from its first character [c] builds: a chord of
    one note numbered by the digit, or a note named by the character. *)
Definition first_char_decoding (c : ascii) (at_offset : Q) : output_note :=
  match Py.digit_value c with
  | Some d =>
      OutChord {| chord_notes := [piano_note (PitchNumber d) 0];
                  chord_offset := at_offset |}
  | None => OutNote (piano_note (PitchName (String c EmptyString)) at_offset)
  end.

Definition head_char (item : string) : ascii :=
  match item with
  | EmptyString => "000"%char
  | String c _ => c
  end.

Fixpoint decode_from (s : settings) (at_offset : Q) (items : list string)
  : list output_note :=
  match items with
  | [] => []
  | item :: rest =>
      first_char_decoding (head_char item) at_offset
      :: decode_from s (float_add s at_offset (offset_increment s)) rest
  end.

(** The tokens [get_notes] can produce from a parsed MIDI file: a pitch
    name, which music21 starts with the step letter, or the dot-joined
    pitch classes of a chord that has at least one pitch. *)
Definition step_letter (c : ascii) : Prop :=
  c ∈ ["A"; "B"; "C"; "D"; "E"; "F"; "G"]%char.

Definition corpus_token (t : string) : Prop :=
  (∃ c rest, t = String c rest ∧ step_letter c) ∨
  (∃ d ds, t = Py.join "." (Py.str <$> d :: ds)).

(** An item [create_midi] can decode: it has a first character, and that
    character is not a dot. *)
Definition decodable (item : string) : Prop :=
  match item with
  | EmptyString => False
  | String c _ => Py.is_dot c = false
  end.

(** A run follows a plan when the stages it entered are an initial segment
    of the plan, and the whole plan if no exception was raised. *)
Definition follows {A} (r : run A) (plan : list stage) : Prop :=
  entered r `prefix_of` plan ∧ (Py.is_ok (outcome r) = true → entered r = plan).



(** The readings of the spec that the code does not satisfy. *)
Definition every_failure_is_fatal {Score} (m21 : music21 Score)
    (files : list string) : Prop :=
  ∀ file, file ∈ files →
    (Py.is_ok (converter_parse m21 file) = false ∨
     ∃ midi, converter_parse m21 file = Py.Ok midi ∧
             Py.is_ok (first_part_recurse m21 midi) = false) →
    Py.is_ok (get_notes m21 files) = false.

Definition every_run_follows_pipeline {A} (r : run A) (epochs : nat) : Prop :=
  entered r = pipeline epochs.



(** ** Concrete corpora and library behaviours *)

Module Fixtures.

Definition window_2 : settings :=
  {| length_ := 2; offset_increment := 1 # 2; float_add := Qplus |}.

(** A score is the list of its elements.  [partitioned] scores have
    instrument parts; [flat] ones make [partitionByInstrument] raise. *)
Definition one_score : list element :=
  [Note "C4"; Other; Note "D4"; Chord [4; 7]; Note "C4"].

Definition partitioned : music21 (list element) :=
  {| converter_parse file :=
       if String.eqb file "broken.mid"
       then Py.Raise (Py.LibraryError "not a MIDI file")
       else Py.Ok one_score;
     first_part_recurse score := Py.Ok score;
     flat_notes score := Py.Ok score |}.

Definition flat : music21 (list element) :=
  {| converter_parse file := Py.Ok one_score;
     first_part_recurse score := Py.Raise (Py.LibraryError "no instrument parts");
     flat_notes score := Py.Ok (List.filter (λ e, bool_decide (is_Some (token_of e))) score) |}.

Definition one_hot (num_classes code : nat) : list nat :=
  (λ j, if bool_decide (j = code) then 1 else 0) <$> seq 0 num_classes.

(** A library whose calls succeed on non-empty data and whose trained
    generator outputs [predictions]. *)
Definition trained (predictions : list Q) : keras :=
  {| to_categorical y :=
       match y with
       | [] => Py.Raise (Py.ValueError "zero-size array")
       | _ => Py.Ok (one_hot (S (max_list y)) <$> y)
       end;
     randint epoch high batch_size :=
       if bool_decide (high = 0) then Py.Raise (Py.ValueError "low >= high")
       else Py.Ok (replicate batch_size 0);
     train_on_batches epoch real_seqs := Py.Ok (1 # 2, 1 # 2, 1 # 3)%Q;
     predictions_0 := predictions;
     savefig disc_loss gen_loss := Py.Ok tt |}.

Definition fresh_gan : GAN := {| seq_length := 2; disc_loss := []; gen_loss := [] |}.

(** The float 0.1, as [runGan(7, 0.1, a)] sets it, and the default 0.5,
    both with the addition of CPython. *)
Definition tenth : Q := 3602879701896397 # 36028797018963968.




End Fixtures.

(** ** [GAN.__init__], [runGan] and the script entry point
    (lines 123-128, 281-299) *)

(** The fields [__init__] sets that the script reads back.  The networks it
    builds and compiles belong to keras and are what [keras] stands for. *)
Definition new_GAN (rows : nat) : GAN :=
  {| seq_length := rows; disc_loss := []; gen_loss := [] |}.

Section entry_points.
Context {Score : Type} (m21 : music21 Score) (k : keras) (files : list string).

(** [runGan(l, off_inc, a)] assigns the three globals, then builds the GAN
    with [rows=length] and trains it for 5 epochs.  [alpha] only reaches
    the LeakyReLU layers of the networks. *)
Definition runGan (l : nat) (off_inc a : Q) : run (GAN * midi_file) :=
  let globals := {| length_ := l; offset_increment := off_inc;
                    float_add := Binary64.add |} in
  let gan := new_GAN (length_ globals) in
  train m21 k globals files gan 5 32 1.

(** The [__main__] block: the defaults, 200 epochs. *)
Definition main : run (GAN * midi_file) :=
  let gan := new_GAN (length_ default_settings) in
  train m21 k default_settings files gan 200 32 1.
End entry_points.

(** ** Further specifications *)

(** The epochs whose losses are recorded: those divisible by
    [sample_interval]. *)
Definition logged_epochs (epochs sample_interval : nat) : list nat :=
  filter (λ epoch, epoch `mod` sample_interval = 0) (Py.range epochs).


(** The pitch number [create_midi] gives the one note of the chord decoded
    from a chord token whose first pitch class is [d]: its leading digit. *)
Definition leading_digit (d : nat) : Z :=
  if bool_decide (d < 10) then Z.of_nat d else 1%Z.

Module Samples.

Definition two_files_corpus : list string := ["C4"; "D4"; "4.7"; "C4"].

Definition low_outputs : list Q := [-483 # 484; -241 # 242].

End Samples.

(** ** Facts about the Python containers *)

Section dict_facts.
Context `{Countable K} {V : Type}.
Implicit Types (pairs : list (K * V)) (k : K) (v : V).

Lemma dict_snoc pairs k v :
  Py.dict (pairs ++ [(k, v)]) = <[k := v]> (Py.dict pairs).
Proof. unfold Py.dict. by rewrite fold_left_app. Qed.

Lemma dict_lookup pairs k v :
  NoDup pairs.*1 → Py.dict pairs !! k = Some v ↔ (k, v) ∈ pairs.
Proof.
  induction pairs as [|[k' v'] pairs IH] using rev_ind.
  - intros _. unfold Py.dict; simpl. rewrite lookup_empty, elem_of_nil.
    split; [discriminate|contradiction].
  - rewrite fmap_app, NoDup_app. simpl. intros (Hnd & Hfresh & _).
    rewrite dict_snoc, elem_of_app, list_elem_of_singleton.
    destruct (decide (k' = k)) as [->|Hne].
    + rewrite lookup_insert_eq. split.
      * intros [= ->]. by right.
      * intros [Hin|[= ->]]; [|done].
        exfalso. apply (Hfresh k); [|apply list_elem_of_here].
        apply list_elem_of_fmap. by exists (k, v).
    + rewrite lookup_insert_ne by done. rewrite IH by done. split.
      * by left.
      * intros [Hin|[= <- _]]; [done|]. by destruct Hne.
Qed.
End dict_facts.

Section filter_facts.
Context {A : Type} (P : A → Prop) `{∀ x, Decision (P x)}.

Lemma filter_keep_all (l : list A) : Forall P l → filter P l = l.
Proof.
  induction 1 as [|x l Hx _ IH]; [done|].
  by rewrite filter_cons, decide_True, IH.
Qed.

Lemma filter_drop_all (l : list A) : Forall (λ x, ¬ P x) l → filter P l = [].
Proof.
  induction 1 as [|x l Hx _ IH]; [done|].
  by rewrite filter_cons, decide_False.
Qed.
End filter_facts.

(** ** Facts about the vocabulary *)

Section vocabulary_facts.
Implicit Types (notes : list string) (t : string) (k : nat).

Lemma pitchnames_perm notes : pitchnames notes ≡ₚ elements (Py.set notes).
Proof. apply merge_sort_Permutation. Qed.

Lemma pitchnames_elem notes t : t ∈ pitchnames notes ↔ t ∈ notes.
Proof.
  rewrite pitchnames_perm, elem_of_elements. unfold Py.set.
  by rewrite elem_of_list_to_set.
Qed.

Lemma pitchnames_NoDup notes : NoDup (pitchnames notes).
Proof. rewrite pitchnames_perm. apply NoDup_elements. Qed.

Lemma pitchnames_sorted notes : StronglySorted String.le (pitchnames notes).
Proof. apply (StronglySorted_merge_sort _). Qed.

Lemma pitchnames_length notes : length (pitchnames notes) = n_vocab_of notes.
Proof. by rewrite pitchnames_perm. Qed.

Lemma note_to_int_lookup notes t k :
  note_to_int notes !! t = Some k ↔ pitchnames notes !! k = Some t.
Proof.
  unfold note_to_int, Py.enumerate. rewrite dict_lookup.
  - rewrite list_elem_of_fmap. split.
    + intros ([i s] & [= -> ->] & Hin).
      apply elem_of_lookup_imap in Hin as (j & x & [= -> ->] & Hj). done.
    + intros Hk. exists (k, t). split; [done|].
      apply elem_of_lookup_imap. by exists k, t.
  - rewrite <-list_fmap_compose, fmap_imap.
    erewrite imap_ext; [rewrite imap_const, list_fmap_id; apply pitchnames_NoDup|].
    done.
Qed.

Lemma int_to_note_lookup notes (z : Z) t :
  int_to_note notes !! z = Some t ↔
  (0 ≤ z)%Z ∧ pitchnames notes !! Z.to_nat z = Some t.
Proof.
  unfold int_to_note, Py.enumerate. rewrite dict_lookup.
  - rewrite list_elem_of_fmap. split.
    + intros ([i s] & [= -> ->] & Hin).
      apply elem_of_lookup_imap in Hin as (j & x & [= -> ->] & Hj).
      rewrite Nat2Z.id. split; [lia|done].
    + intros [Hz Hk]. exists (Z.to_nat z, t). split; [f_equal; lia|].
      apply elem_of_lookup_imap. by exists (Z.to_nat z), t.
  - rewrite <-list_fmap_compose, fmap_imap.
    erewrite imap_ext; [|done]. simpl.
    rewrite <-(fmap_imap (λ n _, n) Z.of_nat).
    apply (NoDup_fmap_2 _). rewrite imap_seq_0, list_fmap_id. apply NoDup_seq.
Qed.

(** In a sorted list without duplicates, the index of an element counts
    the elements strictly below it. *)
Lemma sorted_index_rank (l : list string) t k :
  StronglySorted String.le l → NoDup l → l !! k = Some t →
  length (filter (strictly_below t) l) = k.
Proof.
  intros Hs Hnd Hk.
  assert (k < length l) as Hlt by (by eapply lookup_lt_Some).
  rewrite <-(take_drop_middle l k t Hk) in Hs, Hnd |- *.
  rewrite filter_app, filter_cons, length_app.
  apply StronglySorted_app in Hs as (Hle & _ & Hs2).
  apply NoDup_app in Hnd as (_ & Hfresh & Hnd2).
  apply NoDup_cons in Hnd2 as [Hnotin _].
  apply StronglySorted_cons in Hs2 as [Hge _].
  rewrite filter_keep_all, filter_drop_all.
  - rewrite decide_False by (intros [_ ?]; done).
    rewrite length_take. simpl. lia.
  - apply Forall_forall. intros s Hin [Hst Hne].
    rewrite Forall_forall in Hge. specialize (Hge s Hin).
    apply Hne. by apply (anti_symm String.le).
  - apply Forall_forall. intros s Hin. split.
    + apply Hle; [done|]. apply list_elem_of_here.
    + intros ->. apply (Hfresh t Hin), list_elem_of_here.
Qed.

Lemma note_to_int_rank notes t k :
  note_to_int notes !! t = Some k → k = rank notes t.
Proof.
  rewrite note_to_int_lookup. intros Hk. unfold rank.
  rewrite <-pitchnames_perm. symmetry.
  apply sorted_index_rank; auto using pitchnames_sorted, pitchnames_NoDup.
Qed.

Lemma note_to_int_total notes t :
  t ∈ notes → ∃ k, note_to_int notes !! t = Some k ∧ k < n_vocab_of notes.
Proof.
  rewrite <-pitchnames_elem, list_elem_of_lookup. intros [k Hk].
  exists k. rewrite note_to_int_lookup. split; [done|].
  rewrite <-pitchnames_length. by eapply lookup_lt_Some.
Qed.
End vocabulary_facts.

(** ** Facts about float arithmetic as modelled on [Q] *)

Section numeric_facts.
Local Open Scope Q_scope.

Lemma int_nonneg (x : Q) : 0 <= x → Py.int x = Qfloor x.
Proof.
  destruct x as [num den]. unfold Qle, Py.int, Qfloor. simpl. intros Hx.
  apply Z.quot_div_nonneg; lia.
Qed.

Lemma normalize_closed_form (n_vocab k : nat) :
  (1 ≤ n_vocab)%nat →
  normalize n_vocab k ==
    (2 * inject_Z (Z.of_nat k) - inject_Z (Z.of_nat n_vocab))
    / inject_Z (Z.of_nat n_vocab).
Proof.
  intros Hn. unfold normalize.
  assert (¬ inject_Z (Z.of_nat n_vocab) == 0) as Hnz.
  { change 0 with (inject_Z 0). rewrite inject_Z_injective. lia. }
  field. done.
Qed.

Lemma denormalize_normalize (n_vocab k : nat) :
  (1 ≤ n_vocab)%nat →
  denormalize (normalize n_vocab k) ==
    inject_Z (484 * Z.of_nat k) / inject_Z (Z.of_nat n_vocab).
Proof.
  intros Hn. unfold denormalize. rewrite normalize_closed_form by done.
  assert (¬ inject_Z (Z.of_nat n_vocab) == 0) as Hnz.
  { change 0 with (inject_Z 0). rewrite inject_Z_injective. lia. }
  rewrite inject_Z_mult. change (inject_Z 484) with 484. field. done.
Qed.

(** What decoding an encoded index yields, for every vocabulary size, when
    both steps are computed exactly. *)
Lemma decode_encode (n_vocab k : nat) :
  (1 ≤ n_vocab)%nat →
  Py.int (denormalize (normalize n_vocab k)) =
    (484 * Z.of_nat k / Z.of_nat n_vocab)%Z.
Proof.
  intros Hn. rewrite int_nonneg.
  - rewrite denormalize_normalize by done. symmetry. apply Zdiv_Qdiv.
  - rewrite denormalize_normalize by done.
    apply Qle_shift_div_l.
    + change 0 with (inject_Z 0). rewrite <-Zlt_Qlt. lia.
    + rewrite Qmult_0_l. change 0 with (inject_Z 0). rewrite <-Zle_Qle. lia.
Qed.

(** With exactly 484 distinct tokens the constant 242 is [n_vocab / 2]
    and, in exact arithmetic, decoding inverts encoding. *)
Lemma decode_encode_484 (k : nat) :
  Py.int (denormalize (normalize 484 k)) = Z.of_nat k.
Proof.
  rewrite decode_encode by lia. change (Z.of_nat 484) with 484%Z.
  rewrite Z.mul_comm. apply Z.div_mul. lia.
Qed.

(** In exact arithmetic a tanh output is decoded to an index between 0
    and 483. *)
Lemma decoded_index_range (x : Q) :
  -1 < x → x < 1 → (0 ≤ Py.int (denormalize x) ≤ 483)%Z.
Proof.
  intros Hlo Hhi.
  assert (0 <= denormalize x) as H0 by (unfold denormalize; lra).
  assert (denormalize x < 484) as H1 by (unfold denormalize; lra).
  rewrite int_nonneg by done. split.
  - change 0%Z with (Qfloor 0). by apply Qfloor_resp_le.
  - assert (Qfloor (denormalize x) < 484)%Z; [|lia].
    rewrite Zlt_Qlt. eapply Qle_lt_trans; [apply Qfloor_le|done].
Qed.
End numeric_facts.

(** ** Facts about decoding in [generate] *)

Section decoding_facts.
Implicit Types (notes : list string) (t : string) (z : Z).

Lemma lookup_int_Ok notes z t :
  Py.lookup_int (int_to_note notes) z = Py.Ok t ↔
  (0 ≤ z)%Z ∧ pitchnames notes !! Z.to_nat z = Some t.
Proof.
  unfold Py.lookup_int. rewrite <-int_to_note_lookup.
  destruct (int_to_note notes !! z); naive_solver.
Qed.

Lemma lookup_int_in_range notes z :
  (0 ≤ z < Z.of_nat (n_vocab_of notes))%Z →
  ∃ t, Py.lookup_int (int_to_note notes) z = Py.Ok t ∧ t ∈ notes.
Proof.
  intros Hz. rewrite <-pitchnames_length in Hz.
  destruct (lookup_lt_is_Some_2 (pitchnames notes) (Z.to_nat z)) as [t Ht]; [lia|].
  exists t. rewrite lookup_int_Ok. split; [split; [lia|done]|].
  apply pitchnames_elem. by eapply list_elem_of_lookup_2.
Qed.

Lemma lookup_int_out_of_range notes z :
  (Z.of_nat (n_vocab_of notes) ≤ z)%Z →
  Py.lookup_int (int_to_note notes) z = Py.Raise (Py.KeyError (Py.KInt z)).
Proof.
  intros Hz. unfold Py.lookup_int.
  destruct (int_to_note notes !! z) as [t|] eqn:Hl; [|done].
  apply int_to_note_lookup in Hl as [_ Hl]. apply lookup_lt_Some in Hl.
  rewrite pitchnames_length in Hl. lia.
Qed.

(** Whatever [generate] manages to decode is a token of the corpus. *)
Lemma decoded_tokens_in_corpus notes (zs : list Z) (tokens : list string) :
  Py.comprehension (Py.lookup_int (int_to_note notes)) zs = Py.Ok tokens →
  Forall (λ t, t ∈ notes) tokens.
Proof.
  revert tokens. induction zs as [|z zs IH]; simpl; intros tokens.
  - intros [= <-]. constructor.
  - destruct (Py.lookup_int (int_to_note notes) z) as [t|] eqn:Hz; [|done].
    destruct (Py.comprehension _ zs) as [ts|]; [|done].
    intros [= <-]. constructor; [|by apply IH].
    apply lookup_int_Ok in Hz as [_ Hz].
    apply pitchnames_elem. by eapply list_elem_of_lookup_2.
Qed.

(** From 484 distinct tokens on, no tanh output makes the lookup fail when
    [x * 242 + 242] is computed exactly. *)
Lemma lookup_succeeds_from_484 notes (x : Q) :
  484 ≤ n_vocab_of notes → (-1 < x)%Q → (x < 1)%Q →
  ∃ t, Py.lookup_int (int_to_note notes) (Py.int (denormalize x)) = Py.Ok t
       ∧ t ∈ notes.
Proof.
  intros Hn Hlo Hhi. apply lookup_int_in_range.
  pose proof (decoded_index_range x Hlo Hhi). lia.
Qed.

(** Below 484 distinct tokens, the tanh output 241/242 is decoded to the
    key 483, which the dictionary does not have. *)
Lemma lookup_fails_below_484 notes :
  n_vocab_of notes < 484 →
  Py.lookup_int (int_to_note notes) (Py.int (denormalize (241 # 242)))
  = Py.Raise (Py.KeyError (Py.KInt 483)).
Proof.
  intros Hn. change (Py.int (denormalize (241 # 242))) with 483%Z.
  apply lookup_int_out_of_range. lia.
Qed.
End decoding_facts.

(** ** Facts about loops and comprehensions *)

Section loop_facts.
Context {A B S : Type}.

Lemma for_each_app (xs ys : list A) (body : S → A → Py.result S) (acc : S) :
  Py.for_each (xs ++ ys) body acc =
  Py.bind (Py.for_each xs body acc) (Py.for_each ys body).
Proof.
  revert acc. induction xs as [|x xs IH]; intros acc; simpl; [done|].
  destruct (body acc x); simpl; [apply IH|done].
Qed.

Lemma comprehension_total (f : A → Py.result B) (g : A → B) (xs : list A) :
  Forall (λ x, f x = Py.Ok (g x)) xs →
  Py.comprehension f xs = Py.Ok (g <$> xs).
Proof.
  induction 1 as [|x xs Hx _ IH]; simpl; [done|]. by rewrite Hx, IH.
Qed.
End loop_facts.

(** ** Facts about [get_notes] *)

Section get_notes_facts.
Context {Score : Type} (m21 : music21 Score).
Implicit Types (files : list string) (notes : list string).

Lemma append_tokens (elements : list element) notes :
  fold_left append_token elements notes = notes ++ tokens_of elements.
Proof.
  revert notes. induction elements as [|e elements IH]; intros notes; simpl.
  - by rewrite app_nil_r.
  - rewrite IH. unfold tokens_of. destruct e; simpl; by rewrite <-?app_assoc.
Qed.

Lemma scan_from files notes result :
  Py.for_each files (scan_file m21) notes = Py.Ok result ↔
  ∃ streams,
    Forall2 (λ file elements, notes_to_parse m21 file = Py.Ok elements) files streams
    ∧ result = notes ++ concat (tokens_of <$> streams).
Proof.
  revert notes. induction files as [|file files IH]; intros notes; simpl.
  - split.
    + intros [= <-]. exists []. split; [constructor|]. simpl. by rewrite app_nil_r.
    + intros (streams & Hall & ->). inversion Hall; subst. simpl. by rewrite app_nil_r.
  - unfold scan_file at 1. destruct (notes_to_parse m21 file) as [elements|e] eqn:Hfile; simpl.
    + rewrite IH, append_tokens. split.
      * intros (streams & Hall & ->). exists (elements :: streams).
        split; [by constructor|]. simpl. by rewrite app_assoc.
      * intros (streams & Hall & ->). inversion Hall as [|? els ? streams' Hels Hall']; subst.
        rewrite Hfile in Hels. injection Hels as <-.
        exists streams'. split; [done|]. simpl. by rewrite app_assoc.
    + split; [done|]. intros (streams & Hall & _).
      inversion Hall; subst. congruence.
Qed.

Lemma scan_raises before file after notes e :
  Forall (λ f, Py.is_ok (notes_to_parse m21 f) = true) before →
  notes_to_parse m21 file = Py.Raise e →
  Py.for_each (before ++ file :: after) (scan_file m21) notes = Py.Raise e.
Proof.
  intros Hbefore Hfile. revert notes.
  induction Hbefore as [|f before Hf _ IH]; intros notes; simpl.
  - unfold scan_file at 1. by rewrite Hfile.
  - unfold scan_file at 1. destruct (notes_to_parse m21 f); [|done]. simpl. apply IH.
Qed.

Lemma token_of_shape (elements : list element) t :
  t ∈ tokens_of elements →
  ∃ e, e ∈ elements ∧
       (e = Note t ∨ ∃ normalOrder, e = Chord normalOrder
                                    ∧ t = Py.join "." (Py.str <$> normalOrder)).
Proof.
  unfold tokens_of. rewrite list_elem_of_omap. intros (e & He & Ht).
  exists e. split; [done|]. destruct e; simpl in Ht; simplify_eq; eauto.
Qed.
End get_notes_facts.

(** ** Facts about slices *)

Section slice_facts.
Context {A : Type} (xs : list A).

Lemma slice_length i j : j ≤ length xs → length (Py.slice xs i j) = j - i.
Proof. intros Hj. unfold Py.slice. rewrite length_take, length_drop. lia. Qed.

Lemma slice_lookup i j n :
  n < j - i → Py.slice xs i j !! n = xs !! (i + n).
Proof. intros Hn. unfold Py.slice. by rewrite lookup_take_lt, lookup_drop. Qed.

Lemma slice_subset i j x : x ∈ Py.slice xs i j → x ∈ xs.
Proof.
  unfold Py.slice. intros Hx.
  by apply subseteq_take, subseteq_drop in Hx.
Qed.
End slice_facts.

(** ** Facts about [prepare_sequences] *)

Section windowing_facts.
Context (s : settings) (notes : list string).
Let L := length_ s.

Lemma lookup_code t :
  t ∈ notes → Py.lookup_str (note_to_int notes) t = Py.Ok (code_of notes t).
Proof.
  intros Ht. apply note_to_int_total in Ht as (k & Hk & _).
  unfold Py.lookup_str, code_of. by rewrite Hk.
Qed.

Let window_body := encode_window L notes (note_to_int notes).

Lemma window_body_Ok acc i :
  i + L < length notes →
  window_body acc i =
    Py.Ok (acc.1 ++ [window_codes s notes i], acc.2 ++ [successor_code s notes i]).
Proof.
  intros Hi. unfold window_body, encode_window, Py.getitem, successor_code, window_codes.
  fold L.
  destruct (lookup_lt_is_Some_2 notes (i + L) Hi) as [t Ht]. rewrite Ht. simpl.
  rewrite (comprehension_total _ (code_of notes)).
  - simpl. rewrite lookup_code; [done|]. by eapply list_elem_of_lookup_2.
  - apply Forall_forall. intros x Hx. apply lookup_code. by eapply slice_subset.
Qed.

Lemma window_loop n : ∀ a acc,
  a + n + L ≤ length notes →
  Py.for_each (seq a n) window_body acc =
    Py.Ok (acc.1 ++ (window_codes s notes <$> seq a n),
           acc.2 ++ (successor_code s notes <$> seq a n)).
Proof.
  induction n as [|n IH]; intros a acc Ha; simpl.
  - rewrite !app_nil_r. by destruct acc.
  - rewrite window_body_Ok by lia. rewrite IH by lia. simpl.
    by rewrite <-!app_assoc.
Qed.

Lemma encode_windows_Ok :
  encode_windows s notes =
    Py.Ok (window_codes s notes <$> Py.range (length notes - L),
           successor_code s notes <$> Py.range (length notes - L)).
Proof.
  unfold encode_windows. fold L. fold window_body. unfold Py.range.
  destruct (decide (L ≤ length notes)) as [Hle|Hgt].
  - by rewrite window_loop by lia.
  - by replace (length notes - L) with 0 by lia.
Qed.
End windowing_facts.

(** ** Facts about binary64 addition *)

Section binary64_facts.

(** 0.1 is the float it is meant to be, and 0.1 + 0.2 is the float written
    0.30000000000000004. *)
Lemma tenth_is_a_float :
  Binary64.of_Q Fixtures.tenth = S754_finite false 7205759403792794 (-56)
  ∧ Binary64.of_Q (1 # 10) = Binary64.of_Q Fixtures.tenth.
Proof. split; reflexivity. Qed.

Lemma tenth_plus_two_tenths :
  Binary64.add Fixtures.tenth (Binary64.add Fixtures.tenth Fixtures.tenth)
  == 5404319552844596 # 18014398509481984.
Proof. reflexivity. Qed.

(** Halves add up exactly. *)
Lemma halves_add_exactly (n : nat) :
  n ≤ 8 →
  Binary64.add (inject_Z (Z.of_nat n) * (1 # 2)) (1 # 2)
  == inject_Z (Z.of_nat n) * (1 # 2) + (1 # 2).
Proof.
  intros Hn. do 9 (destruct n as [|n]; [reflexivity|]). lia.
Qed.
End binary64_facts.

(** ** Facts about [create_midi] *)

Section create_midi_facts.
Context (s : settings).
Implicit Types (st : midi_state) (item : string) (c : ascii).

Lemma digit_is_not_dot c d : Py.digit_value c = Some d → Py.is_dot c = false.
Proof.
  intros Hd. destruct (Py.is_dot c) eqn:Hdot; [|done].
  apply Ascii.eqb_eq in Hdot. subst c. discriminate Hd.
Qed.

Lemma create_midi_step_empty st :
  create_midi_step s st EmptyString = Py.Raise Py.IndexError.
Proof. done. Qed.

Lemma create_midi_step_dot st rest :
  create_midi_step s st (String "." rest) =
    Py.Raise (Py.ValueError "invalid literal for int()").
Proof. done. Qed.

Lemma create_midi_step_char st c rest :
  Py.is_dot c = false →
  create_midi_step s st (String c rest) =
    Py.Ok {| offset := float_add s (offset st) (offset_increment s);
             output_notes := output_notes st ++ [first_char_decoding c (offset st)] |}.
Proof.
  intros Hdot. unfold create_midi_step, first_char_decoding. simpl.
  rewrite Hdot. simpl.
  destruct (Py.digit_value c) as [d|] eqn:Hd; simpl.
  - by replace (10 * 0 + d)%Z with d by lia.
  - done.
Qed.

Lemma create_midi_step_decodable st item :
  decodable item →
  create_midi_step s st item =
    Py.Ok {| offset := float_add s (offset st) (offset_increment s);
             output_notes :=
               output_notes st ++ [first_char_decoding (head_char item) (offset st)] |}.
Proof. destruct item as [|c rest]; [done|]. apply create_midi_step_char. Qed.

Lemma first_char_decoding_offset c (o : Q) : offset_of (first_char_decoding c o) = o.
Proof. unfold first_char_decoding. by destruct (Py.digit_value c). Qed.

(** A step that does not raise appends one element at the current offset
    and advances the offset by the increment. *)
Lemma create_midi_step_Ok st item st' :
  create_midi_step s st item = Py.Ok st' →
  offset st' = float_add s (offset st) (offset_increment s) ∧
  ∃ new, output_notes st' = output_notes st ++ [new] ∧ offset_of new = offset st.
Proof.
  destruct item as [|c rest]; [done|].
  destruct (Py.is_dot c) eqn:Hdot.
  - apply Ascii.eqb_eq in Hdot. subst c. by rewrite create_midi_step_dot.
  - rewrite create_midi_step_char by done. intros [= <-]. simpl.
    split; [done|]. eexists. split; [done|]. apply first_char_decoding_offset.
Qed.

Lemma create_midi_loop_decodable items : ∀ st,
  Forall decodable items →
  ∃ o, create_midi_loop s st items =
         ({| offset := o;
             output_notes := output_notes st ++ decode_from s (offset st) items |},
          None).
Proof.
  induction items as [|item items IH]; intros st Hall; simpl.
  - exists (offset st). rewrite app_nil_r. by destruct st.
  - apply Forall_cons in Hall as [Hitem Hall].
    rewrite create_midi_step_decodable by done.
    destruct (IH {| offset := float_add s (offset st) (offset_increment s);
                    output_notes := output_notes st
                      ++ [first_char_decoding (head_char item) (offset st)] |} Hall)
      as [o ->].
    exists o. simpl. by rewrite <-app_assoc.
Qed.



Lemma create_midi_loop_length items : ∀ st st',
  create_midi_loop s st items = (st', None) →
  length (output_notes st') = length (output_notes st) + length items.
Proof.
  induction items as [|item items IH]; intros st st'; simpl.
  - intros [= <-]. lia.
  - destruct (create_midi_step s st item) as [st1|] eqn:Hstep; [|done].
    intros Hloop. rewrite (IH _ _ Hloop).
    apply create_midi_step_Ok in Hstep as (_ & new & -> & _).
    rewrite length_app. simpl. lia.
Qed.

Lemma decode_from_length (o : Q) items : length (decode_from s o items) = length items.
Proof. revert o. induction items; intros o; simpl; [done|]. by rewrite IHitems. Qed.

Lemma decode_from_lookup items : ∀ (o : Q) i item,
  items !! i = Some item →
  ∃ o', decode_from s o items !! i = Some (first_char_decoding (head_char item) o').
Proof.
  induction items as [|x items IH]; intros o [|i] item; simpl; try done.
  - intros [= ->]. by exists o.
  - apply IH.
Qed.
End create_midi_facts.

(** ** Facts about corpus tokens *)

Section corpus_token_facts.

Lemma str_head (n : nat) :
  ∃ c rest d, Py.str n = String c rest ∧ Py.digit_value c = Some d.
Proof.
  unfold Py.str. destruct (Nat.to_uint n); simpl; eauto.
Qed.

Lemma join_head (sep x : string) (xs : list string) c rest :
  x = String c rest → ∃ rest', Py.join sep (x :: xs) = String c rest'.
Proof.
  intros ->. unfold Py.join. simpl. destruct xs; simpl; eauto.
Qed.

Lemma step_letter_not_digit c :
  step_letter c → Py.digit_value c = None ∧ Py.is_dot c = false.
Proof.
  unfold step_letter. intros Hc.
  repeat (apply elem_of_cons in Hc as [->|Hc]; [done|]).
  by apply elem_of_nil in Hc.
Qed.

(** A corpus token starts with a step letter or with a decimal digit. *)
Lemma corpus_token_head t :
  corpus_token t →
  ∃ c rest, t = String c rest ∧
    ((step_letter c ∧ Py.digit_value c = None) ∨ is_Some (Py.digit_value c)).
Proof.
  intros [(c & rest & -> & Hc)|(d & ds & ->)].
  - exists c, rest. split; [done|]. left. split; [done|].
    by apply step_letter_not_digit.
  - destruct (str_head d) as (c & rest & v & Hstr & Hv).
    rewrite fmap_cons.
    destruct (join_head "." (Py.str d) (Py.str <$> ds) c rest Hstr) as [rest' ->].
    exists c, rest'. split; [done|]. right. eauto.
Qed.

Lemma corpus_token_decodable t : corpus_token t → decodable t.
Proof.
  intros Ht. apply corpus_token_head in Ht as (c & rest & -> & [[Hc _]|[d Hd]]).
  - simpl. by apply step_letter_not_digit.
  - simpl. by eapply digit_is_not_dot.
Qed.

(** Every token that [get_notes] takes from a note whose pitch name
    starts with a step letter, or from a chord with at least one pitch,
    is a corpus token. *)
Lemma token_of_corpus_token (e : element) t :
  token_of e = Some t →
  match e with
  | Note pitch => ∃ c rest, pitch = String c rest ∧ step_letter c
  | Chord normalOrder => normalOrder ≠ []
  | Other => True
  end →
  corpus_token t.
Proof.
  destruct e as [pitch|[|d ds]|]; simpl; intros [= <-] He; try done.
  - by left.
  - right. by exists d, ds.
Qed.
End corpus_token_facts.

(** ** Facts about the stages of [train] *)

Section train_facts.

Lemma follows_enter {A} (st : stage) (body : Py.result A) :
  follows (enter st body) [st].
Proof. split; done. Qed.

Lemma follows_ret {A} (a : A) : follows (mret a : run A) [].
Proof. split; done. Qed.

Lemma follows_bind {A B} (r : run A) (f : A → run B) (p1 p2 : list stage) :
  follows r p1 → (∀ a, follows (f a) p2) → follows (r ≫= f) (p1 ++ p2).
Proof.
  intros [Hpre Hall] Hf. unfold mbind, run_bind.
  destruct (outcome r) as [a|e]; simpl.
  - rewrite (Hall eq_refl). destruct (Hf a) as [Hpre' Hall'].
    split; [by apply prefix_app|]. intros Hok. by rewrite (Hall' Hok).
  - split; [by apply prefix_app_r|done].
Qed.

Lemma follows_epochs {S} (body : S → nat → Py.result S) (n : nat) : ∀ a (acc : S),
  follows (for_each_run (seq a n)
             (λ acc epoch, enter (TrainingEpoch epoch) (body acc epoch)) acc)
          (TrainingEpoch <$> seq a n).
Proof.
  induction n as [|n IH]; intros a acc; simpl.
  - apply follows_ret.
  - apply (follows_bind _ _ [TrainingEpoch a]); [apply follows_enter|].
    intros acc'. apply IH.
Qed.

Lemma train_follows_pipeline {Score} (m21 : music21 Score) (k : keras)
    (s : settings) (files : list string) (self : GAN)
    (epochs batch_size sample_interval : nat) :
  follows (train m21 k s files self epochs batch_size sample_interval)
          (pipeline epochs).
Proof.
  unfold train, pipeline.
  apply (follows_bind _ _ [CorpusScan]); [apply follows_enter|]. intros notes.
  apply (follows_bind _ _ [VocabularyBuild]); [apply follows_enter|]. intros n_vocab.
  apply (follows_bind _ _ [SequenceWindowing]); [apply follows_enter|]. intros prepared.
  apply follows_bind; [apply follows_epochs|]. intros self'.
  apply (follows_bind _ _ [Sampling]); [apply follows_enter|]. intros written.
  apply (follows_bind _ _ [LossPlot] []); [apply follows_enter|]. intros _.
  apply follows_ret.
Qed.

Lemma run_bind_enter_Ok {A B} (st : stage) (a : A) (f : A → run B) :
  enter st (Py.Ok a) ≫= f = Run (st :: entered (f a)) (outcome (f a)).
Proof. done. Qed.

Lemma run_bind_enter_Raise {A B} (st : stage) (e : Py.exn) (f : A → run B) :
  enter st (Py.Raise e : Py.result A) ≫= f = Run [st] (Py.Raise e).
Proof. done. Qed.

Lemma run_bind_Run_Ok {A B} (l : list stage) (a : A) (f : A → run B) :
  Run l (Py.Ok a) ≫= f = Run (l ++ entered (f a)) (outcome (f a)).
Proof. done. Qed.

Lemma run_bind_Run_Raise {A B} (l : list stage) (e : Py.exn) (f : A → run B) :
  Run l (Py.Raise e : Py.result A) ≫= f = Run l (Py.Raise e).
Proof. done. Qed.

(** The loop over the epochs, read off the loop on results: it enters the
    epochs in order up to the first one that raises. *)
Lemma epochs_run_Ok {St} (body : St → nat → Py.result St) (n : nat) : ∀ a acc acc',
  Py.for_each (seq a n) body acc = Py.Ok acc' →
  for_each_run (seq a n) (λ acc epoch, enter (TrainingEpoch epoch) (body acc epoch)) acc
  = Run (TrainingEpoch <$> seq a n) (Py.Ok acc').
Proof.
  induction n as [|n IH]; intros a acc acc'; cbn [seq Py.for_each for_each_run].
  - by intros [= <-].
  - destruct (body acc a) as [acc1|]; [|done]. intros Hrest.
    rewrite run_bind_enter_Ok, (IH _ _ _ Hrest). done.
Qed.

Lemma epochs_run_Raise {St} (body : St → nat → Py.result St) (n j : nat) :
  ∀ a acc acc_j e,
  j < n →
  Py.for_each (seq a j) body acc = Py.Ok acc_j →
  body acc_j (a + j) = Py.Raise e →
  for_each_run (seq a n) (λ acc epoch, enter (TrainingEpoch epoch) (body acc epoch)) acc
  = Run (TrainingEpoch <$> seq a (S j)) (Py.Raise e).
Proof.
  revert n. induction j as [|j IH]; intros n a acc acc_j e Hj.
  - destruct n as [|n]; [lia|]. cbn [seq Py.for_each for_each_run fmap list_fmap].
    intros [= <-]. rewrite Nat.add_0_r. intros ->. by rewrite run_bind_enter_Raise.
  - destruct n as [|n]; [lia|]. cbn [seq Py.for_each for_each_run].
    destruct (body acc a) as [acc1|]; [|done]. intros Hrest Hraise.
    rewrite run_bind_enter_Ok.
    rewrite (IH n (S a) acc1 acc_j e); [done|lia|done|].
    by replace (S a + j) with (a + S j) by lia.
Qed.

(** The loop on results either runs to its end or has a first iteration
    that raises. *)
Lemma for_each_first_raise {St} (body : St → nat → Py.result St) (n : nat) : ∀ a acc,
  (∃ acc', Py.for_each (seq a n) body acc = Py.Ok acc') ∨
  (∃ j acc_j e, j < n ∧ Py.for_each (seq a j) body acc = Py.Ok acc_j
                ∧ body acc_j (a + j) = Py.Raise e).
Proof.
  induction n as [|n IH]; intros a acc; simpl.
  - left. by exists acc.
  - destruct (body acc a) as [acc1|e] eqn:Hbody.
    + destruct (IH (S a) acc1) as [[acc' Hok]|(j & acc_j & e & Hj & Hpre & Hraise)].
      * left. by exists acc'.
      * right. exists (S j), acc_j, e. simpl. rewrite Hbody.
        split_and!; [lia|done|]. by replace (a + S j) with (S a + j) by lia.
    + right. exists 0, acc, e. simpl. rewrite Nat.add_0_r. split_and!; [lia|done..].
Qed.

(** When no call raises, neither does [train]. *)
Lemma for_each_run_Ok {A S} (xs : list A) (body : S → A → run S) :
  (∀ acc x, x ∈ xs → Py.is_ok (outcome (body acc x)) = true) →
  ∀ acc, Py.is_ok (outcome (for_each_run xs body acc)) = true.
Proof.
  induction xs as [|x xs IH]; intros Hbody acc; simpl; [done|].
  unfold mbind, run_bind.
  pose proof (Hbody acc x (list_elem_of_here _ _)) as Hx.
  destruct (outcome (body acc x)) as [acc'|]; [|done]. simpl.
  apply IH. intros acc'' y Hy. apply Hbody. by apply list_elem_of_further.
Qed.
End train_facts.

(** * The claims *)

(** ** Vocabulary and encoding *)

(** C7.  For every list of notes, [note_to_int] is defined exactly on the
    tokens of the list; it sends a token to its rank among the distinct
    tokens in sorted order, which is below [n_vocab]; it is injective and
    reaches every integer below [n_vocab]; and [n_vocab = len(set(notes))]
    is the number of keys of the mapping. *)
Theorem vocabulary_mapping_bijection (notes : list string) :
  (∀ t, t ∈ notes ↔ is_Some (note_to_int notes !! t)) ∧
  (∀ t k, note_to_int notes !! t = Some k →
          k < n_vocab_of notes ∧ k = rank notes t
          ∧ pitchnames notes !! k = Some t) ∧
  (∀ t1 t2 k, note_to_int notes !! t1 = Some k →
              note_to_int notes !! t2 = Some k → t1 = t2) ∧
  (∀ k, k < n_vocab_of notes → ∃ t, t ∈ notes ∧ note_to_int notes !! t = Some k) ∧
  size (note_to_int notes) = n_vocab_of notes.
Proof.
  assert (∀ t, t ∈ notes ↔ is_Some (note_to_int notes !! t)) as Hdom.
  { intros t. split.
    - intros Ht. apply note_to_int_total in Ht as (k & Hk & _). by exists k.
    - intros [k Hk]. apply note_to_int_lookup in Hk.
      apply pitchnames_elem. by eapply list_elem_of_lookup_2. }
  split_and!.
  - done.
  - intros t k Hk. split_and!.
    + pose proof Hk as Hk'. apply note_to_int_lookup, lookup_lt_Some in Hk'.
      by rewrite pitchnames_length in Hk'.
    + by apply note_to_int_rank.
    + by apply note_to_int_lookup.
  - intros t1 t2 k H1 H2. apply note_to_int_lookup in H1, H2. congruence.
  - intros k Hk. rewrite <-pitchnames_length in Hk.
    destruct (lookup_lt_is_Some_2 _ _ Hk) as [t Ht]. exists t. split.
    + apply pitchnames_elem. by eapply list_elem_of_lookup_2.
    + by apply note_to_int_lookup.
  - rewrite <-size_dom. unfold n_vocab_of. f_equal. apply set_eq. intros t.
    rewrite elem_of_dom, <-Hdom. unfold Py.set. by rewrite elem_of_list_to_set.
Qed.

(** C5.  For every vocabulary size [n_vocab >= 1] and every token index
    [0 <= k <= n_vocab - 1], the normalised value
    [(k - n_vocab/2) / (n_vocab/2)] lies in the closed interval [-1, 1]. *)
Theorem normalize_in_range (n_vocab k : nat) :
  1 ≤ n_vocab → k ≤ n_vocab - 1 →
  (-1 <= normalize n_vocab k ∧ normalize n_vocab k <= 1)%Q.
Proof.
  intros Hn Hk. unfold normalize.
  assert (0 <= inject_Z (Z.of_nat k))%Q as H0.
  { change 0%Q with (inject_Z 0). rewrite <-Zle_Qle. lia. }
  assert (inject_Z (Z.of_nat k) <= inject_Z (Z.of_nat n_vocab))%Q as H1.
  { rewrite <-Zle_Qle. lia. }
  assert (0 < inject_Z (Z.of_nat n_vocab) / 2)%Q as Hhalf.
  { apply Qlt_shift_div_l; [done|]. rewrite Qmult_0_l.
    change 0%Q with (inject_Z 0). rewrite <-Zlt_Qlt. lia. }
  generalize dependent (inject_Z (Z.of_nat k)).
  generalize dependent (inject_Z (Z.of_nat n_vocab)).
  intros size Hhalf index H0 H1.
  assert (size == 2 * (size / 2))%Q as Hsize by field.
  split.
  - apply Qle_shift_div_l; [done|]. lra.
  - apply Qle_shift_div_r; [done|]. lra.
Qed.

Lemma normalize_in_range_witness :
  (-1 <= normalize 4 3 ∧ normalize 4 3 <= 1)%Q.
Proof. apply (normalize_in_range 4 3); lia. Defined.

(** C2 (the code departs from the claim).  With two distinct tokens, the
    index 1 is encoded as 0 and decoded by [int(x * 242 + 242)] as 242:
    decoding does not give the index back. *)
Theorem decode_of_encode_two_tokens :
  normalize 2 1 == 0 ∧ Py.int (denormalize (normalize 2 1)) = 242%Z.
Proof. split; reflexivity. Qed.

(** C1 (the code departs from the claim).  With one distinct token in the
    corpus and a generator output of 0.5, inside the tanh range, the lookup
    [int_to_note[int(x * 242 + 242)]] of [generate] raises [KeyError(363)]. *)
Theorem generate_lookup_fails_one_token :
  n_vocab_of ["C4"; "C4"; "C4"] = 1 ∧
  generate (Fixtures.trained [1 # 2; 1 # 2]) Fixtures.window_2 ["C4"; "C4"; "C4"]
  = Py.Raise (Py.KeyError (Py.KInt 363)).
Proof. split; vm_compute; reflexivity. Qed.

(** ** The corpus scan *)

(** C6.  [get_notes] returns exactly when every file yields its elements,
    and then the list is, file after file and element after element in
    traversal order, the pitch name of each note and the dot-joined normal
    order of each chord; other elements contribute nothing. *)
Theorem get_notes_token_shape {Score} (m21 : music21 Score) (files : list string) :
  (∀ streams,
     Forall2 (λ file elements, notes_to_parse m21 file = Py.Ok elements) files streams →
     get_notes m21 files = Py.Ok (concat (tokens_of <$> streams))) ∧
  (∀ notes,
     get_notes m21 files = Py.Ok notes →
     ∃ streams,
       Forall2 (λ file elements, notes_to_parse m21 file = Py.Ok elements) files streams
       ∧ notes = concat (tokens_of <$> streams)
       ∧ Forall (λ t, ∃ e, e ∈ concat streams ∧
                   (e = Note t ∨
                    ∃ normalOrder, e = Chord normalOrder
                                   ∧ t = Py.join "." (Py.str <$> normalOrder)))
                notes).
Proof.
  split.
  - intros streams Hall. apply scan_from. by exists streams.
  - intros notes Hnotes. apply scan_from in Hnotes as (streams & Hall & ->).
    exists streams. split_and!; [done..|].
    apply Forall_forall. intros t Ht.
    apply list_elem_of_In, in_concat in Ht as (tokens & Htokens & Ht).
    apply list_elem_of_In, list_elem_of_fmap in Htokens as (elements & -> & Hin).
    apply list_elem_of_In, token_of_shape in Ht as (e & He & Hshape).
    exists e. split; [|done]. apply list_elem_of_In, in_concat.
    exists elements. by rewrite <-!list_elem_of_In.
Qed.

Lemma get_notes_token_shape_witness :
  get_notes Fixtures.partitioned ["a.mid"; "b.mid"]
  = Py.Ok ["C4"; "D4"; "4.7"; "C4"; "C4"; "D4"; "4.7"; "C4"].
Proof.
  apply (proj1 (get_notes_token_shape Fixtures.partitioned ["a.mid"; "b.mid"])
           [Fixtures.one_score; Fixtures.one_score]).
  repeat constructor.
Defined.

(** C3, as the code has it.  An exception of [converter.parse], or of the
    fallback [midi.flat.notes], leaves [get_notes] uncaught; an exception
    of the instrument-partition step is caught by the bare [except] and
    the elements of the file are then those of [midi.flat.notes]. *)
Theorem get_notes_failure_propagation {Score} (m21 : music21 Score)
    (before after : list string) (file : string) :
  Forall (λ f, Py.is_ok (notes_to_parse m21 f) = true) before →
  (∀ e, converter_parse m21 file = Py.Raise e →
        get_notes m21 (before ++ file :: after) = Py.Raise e) ∧
  (∀ midi e, converter_parse m21 file = Py.Ok midi →
             first_part_recurse m21 midi = Py.Raise e →
             notes_to_parse m21 file = flat_notes m21 midi ∧
             ∀ e', flat_notes m21 midi = Py.Raise e' →
                   get_notes m21 (before ++ file :: after) = Py.Raise e').
Proof.
  intros Hbefore. split.
  - intros e He. apply scan_raises; [done|]. unfold notes_to_parse. by rewrite He.
  - intros midi e Hparse Hpart.
    assert (notes_to_parse m21 file = flat_notes m21 midi) as Hfile.
    { unfold notes_to_parse. rewrite Hparse. simpl. by rewrite Hpart. }
    split; [done|]. intros e' Hflat. apply scan_raises; [done|]. congruence.
Qed.

Lemma get_notes_failure_propagation_witness :
  get_notes Fixtures.partitioned ["a.mid"; "broken.mid"; "c.mid"]
  = Py.Raise (Py.LibraryError "not a MIDI file").
Proof.
  apply (proj1 (get_notes_failure_propagation Fixtures.partitioned
                  ["a.mid"] ["c.mid"] "broken.mid"
                  ltac:(repeat constructor))).
  reflexivity.
Defined.

(** C3 as stated fails: for a file without instrument parts the partition
    step raises, and [get_notes] still returns the notes of the file. *)
Lemma partition_failure_is_recovered :
  ¬ every_failure_is_fatal Fixtures.flat ["a.mid"].
Proof.
  intros Hfatal.
  specialize (Hfatal "a.mid" ltac:(apply list_elem_of_here)).
  assert (Py.is_ok (get_notes Fixtures.flat ["a.mid"]) = true) as Hok by reflexivity.
  rewrite Hfatal in Hok; [discriminate|].
  right. exists Fixtures.one_score. split; reflexivity.
Qed.

(** ** Windowing *)

(** C4.  When [len(notes) > sequence_length], the loop of
    [prepare_sequences] builds [len(notes) - sequence_length] windows and
    as many outputs; window [i] has [sequence_length] codes, those of
    [notes[i : i + sequence_length]], whose [j]-th element is
    [notes[i + j]]; output [i] is the code of [notes[i + sequence_length]];
    and [prepare_sequences] returns these windows, normalised. *)
Theorem windowing_shape (k : keras) (s : settings) (notes : list string)
    (n_vocab : nat) :
  length_ s < length notes →
  ∃ network_input network_output,
    encode_windows s notes = Py.Ok (network_input, network_output) ∧
    length network_input = length notes - length_ s ∧
    length network_output = length notes - length_ s ∧
    (∀ i, i < length notes - length_ s →
       ∃ window t code,
         network_input !! i = Some window ∧
         length window = length_ s ∧
         Forall2 (λ t code, note_to_int notes !! t = Some code)
                 (Py.slice notes i (i + length_ s)) window ∧
         (∀ j, j < length_ s →
               Py.slice notes i (i + length_ s) !! j = notes !! (i + j)) ∧
         notes !! (i + length_ s) = Some t ∧
         network_output !! i = Some code ∧
         note_to_int notes !! t = Some code) ∧
    (∀ y, to_categorical k network_output = Py.Ok y →
          prepare_sequences k s notes n_vocab
          = Py.Ok (normalize_array n_vocab network_input, y)).
Proof.
  intros Hlen. eexists _, _. split; [apply encode_windows_Ok|].
  assert (∀ t, t ∈ notes → note_to_int notes !! t = Some (code_of notes t)) as Hcode.
  { intros t Ht. apply note_to_int_total in Ht as (c & Hc & _).
    unfold code_of. by rewrite Hc. }
  unfold Py.range. rewrite !length_fmap, !length_seq. split_and!; [done..| |].
  - intros i Hi.
    assert (i + length_ s < length notes) as Hi' by lia.
    destruct (lookup_lt_is_Some_2 notes _ Hi') as [t Ht].
    exists (window_codes s notes i), t, (code_of notes t).
    rewrite !list_lookup_fmap, !lookup_seq_lt by done. simpl. split_and!.
    + done.
    + unfold window_codes. rewrite length_fmap, slice_length by lia. lia.
    + unfold window_codes. apply Forall2_fmap_r, Forall_Forall2_diag, Forall_forall.
      intros x Hx. simpl. apply Hcode. by eapply slice_subset.
    + intros j Hj. apply slice_lookup. lia.
    + done.
    + unfold successor_code. by rewrite Ht.
    + apply Hcode. by eapply list_elem_of_lookup_2.
  - intros y Hy. unfold prepare_sequences. rewrite encode_windows_Ok.
    cbn [mbind result_bind Py.bind fst snd]. unfold reshape, Py.range.
    rewrite bool_decide_true.
    + cbn [mbind result_bind Py.bind]. by rewrite Hy.
    + split; [done|]. apply Forall_fmap, Forall_forall. intros i Hi. simpl.
      apply elem_of_seq in Hi. unfold window_codes.
      rewrite length_fmap, slice_length by lia. lia.
Qed.

Lemma windowing_shape_witness :
  ∃ network_input network_output,
    encode_windows Fixtures.window_2 ["C4"; "D4"; "4.7"; "C4"]
    = Py.Ok (network_input, network_output)
    ∧ length network_input = 2 ∧ length network_output = 2.
Proof.
  destruct (windowing_shape (Fixtures.trained []) Fixtures.window_2
              ["C4"; "D4"; "4.7"; "C4"] 3 ltac:(simpl; lia))
    as (network_input & network_output & Hwindows & Hin & Hout & _).
  exists network_input, network_output. split_and!; assumption.
Defined.

(** ** Decoding into a MIDI stream *)

(** C9.  For every list of corpus tokens passed to [create_midi], the file
    is written with one element per item, decoded from the first character
    of the item alone: a chord exactly when that character is a decimal
    digit, and then a chord of exactly one note, numbered by the digit;
    otherwise a note whose pitch name is the first character. *)
Theorem create_midi_first_character (s : settings)
    (prediction_output : list string) (filename : string) :
  Forall corpus_token prediction_output →
  ∃ stream,
    create_midi s prediction_output filename
    = Py.Ok {| midi_path := filename +:+ ".mid"; midi_stream := stream |} ∧
    length stream = length prediction_output ∧
    ∀ i item, prediction_output !! i = Some item →
      ∃ c rest out,
        item = String c rest ∧ stream !! i = Some out ∧
        match out with
        | OutChord chord =>
            ∃ d, Py.digit_value c = Some d
                 ∧ chord_notes chord = [piano_note (PitchNumber d) 0]
        | OutNote note =>
            Py.digit_value c = None
            ∧ note_pitch note = PitchName (String c EmptyString)
        end.
Proof.
  intros Hall.
  assert (Forall decodable prediction_output) as Hdec.
  { eapply Forall_impl; [done|]. apply corpus_token_decodable. }
  destruct (create_midi_loop_decodable s prediction_output create_midi_init Hdec)
    as [o Hloop].
  exists (decode_from s 0 prediction_output). unfold create_midi.
  rewrite Hloop. simpl. split_and!; [done|apply decode_from_length|].
  intros i item Hi.
  assert (corpus_token item) as Hitem.
  { rewrite Forall_forall in Hall. apply Hall. by eapply list_elem_of_lookup_2. }
  apply corpus_token_head in Hitem as (c & rest & -> & _).
  destruct (decode_from_lookup s prediction_output 0 i _ Hi) as [o' Ho'].
  exists c, rest, (first_char_decoding c o'). split_and!; [done..|].
  unfold first_char_decoding.
  destruct (Py.digit_value c) as [d|]; simpl; eauto.
Qed.

Lemma create_midi_first_character_witness :
  ∃ stream,
    create_midi Fixtures.window_2 ["C4"; "4.7"; "E-5"] "out"
    = Py.Ok {| midi_path := "out.mid"; midi_stream := stream |}
    ∧ length stream = 3.
Proof.
  assert (Forall corpus_token ["C4"; "4.7"; "E-5"]) as Htokens.
  { apply Forall_cons_2; [|apply Forall_cons_2; [|apply Forall_cons_2; [|apply Forall_nil_2]]].
    - left. exists "C"%char, "4". split; [reflexivity|].
      do 2 apply list_elem_of_further. apply list_elem_of_here.
    - right. exists 4, [7]. reflexivity.
    - left. exists "E"%char, "-5". split; [reflexivity|].
      do 4 apply list_elem_of_further. apply list_elem_of_here. }
  destruct (create_midi_first_character Fixtures.window_2 _ "out" Htokens)
    as (stream & Hfile & Hlen & _).
  exists stream. split; assumption.
Defined.




(** ** The pipeline *)

(** C8, as the code has it.  In every run of [train] the stages entered
    are an initial segment of: corpus scan, vocabulary build, sequence
    windowing, the epochs 0 .. epochs-1 in order, sampling, loss plot; a run
    in which no stage raises enters all of them, each once.  A stage that
    raises ends the run there with its exception, nothing being handled:
    the run of [train] is the corpus scan alone when [get_notes] raises,
    ends at sequence windowing when [prepare_sequences] raises, at epoch
    [j] when that is the first epoch to raise, at sampling when [generate]
    raises, and at the loss plot when [plot_loss] raises or returns.  Hence
    sampling and the loss plot are never entered before the loop has
    completed. *)
Theorem train_pipeline_order {Score} (m21 : music21 Score) (k : keras)
    (s : settings) (files : list string) (self : GAN)
    (epochs batch_size sample_interval : nat) :
  (entered (train m21 k s files self epochs batch_size sample_interval)
     `prefix_of` pipeline epochs ∧
   (Py.is_ok (outcome (train m21 k s files self epochs batch_size sample_interval))
    = true →
    entered (train m21 k s files self epochs batch_size sample_interval)
    = pipeline epochs)) ∧
  (∀ e, get_notes m21 files = Py.Raise e →
        train m21 k s files self epochs batch_size sample_interval
        = Run [CorpusScan] (Py.Raise e)) ∧
  (∀ notes, get_notes m21 files = Py.Ok notes →
     (∀ e, prepare_sequences k s notes (n_vocab_of notes) = Py.Raise e →
           train m21 k s files self epochs batch_size sample_interval
           = Run [CorpusScan; VocabularyBuild; SequenceWindowing] (Py.Raise e)) ∧
     (∀ prepared, prepare_sequences k s notes (n_vocab_of notes) = Py.Ok prepared →
        (∀ j self_j e,
           j < epochs →
           Py.for_each (Py.range j)
             (train_epoch k prepared.1 batch_size sample_interval) self
           = Py.Ok self_j →
           train_epoch k prepared.1 batch_size sample_interval self_j j
           = Py.Raise e →
           train m21 k s files self epochs batch_size sample_interval
           = Run ([CorpusScan; VocabularyBuild; SequenceWindowing]
                  ++ (TrainingEpoch <$> Py.range (S j)))
                 (Py.Raise e)) ∧
        (∀ self',
           Py.for_each (Py.range epochs)
             (train_epoch k prepared.1 batch_size sample_interval) self
           = Py.Ok self' →
           (∀ e, generate k s notes = Py.Raise e →
                 train m21 k s files self epochs batch_size sample_interval
                 = Run ([CorpusScan; VocabularyBuild; SequenceWindowing]
                        ++ (TrainingEpoch <$> Py.range epochs) ++ [Sampling])
                       (Py.Raise e)) ∧
           (∀ written, generate k s notes = Py.Ok written →
              (∀ e, plot_loss k self' = Py.Raise e →
                    train m21 k s files self epochs batch_size sample_interval
                    = Run (pipeline epochs) (Py.Raise e)) ∧
              (∀ u, plot_loss k self' = Py.Ok u →
                    train m21 k s files self epochs batch_size sample_interval
                    = Run (pipeline epochs) (Py.Ok (self', written))))))).
Proof.
  split; [apply train_follows_pipeline|]. unfold train, pipeline. split.
  - intros e ->. by rewrite run_bind_enter_Raise.
  - intros notes ->. rewrite !run_bind_enter_Ok. split.
    + intros e ->. by rewrite run_bind_enter_Raise.
    + intros prepared ->. rewrite run_bind_enter_Ok. split.
      * intros j self_j e Hj Hpre Hraise. unfold Py.range in *.
        by rewrite (epochs_run_Raise _ epochs j 0 self self_j e Hj Hpre Hraise).
      * intros self' Hloop. unfold Py.range in *.
        rewrite (epochs_run_Ok _ epochs 0 self self' Hloop), run_bind_Run_Ok.
        split.
        -- intros e ->. by rewrite run_bind_enter_Raise.
        -- intros written ->. rewrite run_bind_enter_Ok. split.
           ++ intros e ->. by rewrite run_bind_enter_Raise.
           ++ intros u ->. by rewrite run_bind_enter_Ok.
Qed.

Lemma train_pipeline_order_witness :
  ∃ gan written,
    train Fixtures.partitioned (Fixtures.trained [-483 # 484; -483 # 484])
      Fixtures.window_2 ["a.mid"] Fixtures.fresh_gan 3 4 1
    = Run (pipeline 3) (Py.Ok (gan, written)).
Proof.
  eexists _, _.
  pose proof (train_pipeline_order Fixtures.partitioned
                (Fixtures.trained [-483 # 484; -483 # 484])
                Fixtures.window_2 ["a.mid"] Fixtures.fresh_gan 3 4 1)
    as (_ & _ & Hscan).
  edestruct Hscan as [_ Hprepare]; [vm_compute; reflexivity|].
  edestruct Hprepare as [_ Hepochs]; [vm_compute; reflexivity|].
  edestruct Hepochs as [_ Hsampling]; [vm_compute; reflexivity|].
  edestruct Hsampling as [_ Hplot]; [vm_compute; reflexivity|].
  eapply Hplot. vm_compute. reflexivity.
Defined.

(** C8 as stated fails: a file that does not parse makes [get_notes] raise,
    and the run of [train] ends in the corpus scan; no other stage is
    entered. *)
Lemma parse_failure_ends_run :
  ¬ every_run_follows_pipeline
      (train Fixtures.partitioned (Fixtures.trained [-483 # 484; -483 # 484])
         Fixtures.window_2 ["broken.mid"] Fixtures.fresh_gan 3 4 1)
      3.
Proof. unfold every_run_follows_pipeline. vm_compute. discriminate. Qed.

(** The same when [generate] raises [KeyError]: the loss plot is never
    entered. *)
Lemma failed_sampling_skips_loss_plot :
  ¬ every_run_follows_pipeline
      (train Fixtures.partitioned (Fixtures.trained [1 # 2; 1 # 2])
         Fixtures.window_2 ["a.mid"] Fixtures.fresh_gan 3 4 1)
      3.
Proof. unfold every_run_follows_pipeline. vm_compute. discriminate. Qed.

(** * Further properties of the code *)

(** ** The vocabulary *)

Section sorted_lookup.
Context {A : Type} (R : relation A).

Lemma StronglySorted_lookup_lt (l : list A) i j x y :
  StronglySorted R l → l !! i = Some x → l !! j = Some y → i < j → R x y.
Proof.
  intros Hs Hi Hj Hij.
  rewrite <-(take_drop_middle l i x Hi) in Hs, Hj.
  apply StronglySorted_app in Hs as (_ & _ & Hs).
  apply StronglySorted_cons in Hs as [Hall _].
  assert (length (take i l) = i) as Hlen.
  { rewrite length_take. apply lookup_lt_Some in Hi. lia. }
  rewrite lookup_app_r in Hj by lia. rewrite Hlen in Hj.
  destruct (j - i) as [|n] eqn:Hn; [lia|]. simpl in Hj.
  rewrite Forall_forall in Hall. apply Hall. by eapply list_elem_of_lookup_2.
Qed.
End sorted_lookup.

(** X1.  [int_to_note[z]] returns exactly for [0 <= z < n_vocab], and then
    the [z]-th of the sorted distinct tokens, which is a token of the
    corpus; for any other integer it raises [KeyError(z)]. *)
Theorem int_to_note_getitem (notes : list string) (z : Z) :
  ((0 ≤ z < Z.of_nat (n_vocab_of notes))%Z →
   ∃ t, Py.lookup_int (int_to_note notes) z = Py.Ok t
        ∧ pitchnames notes !! Z.to_nat z = Some t ∧ t ∈ notes) ∧
  (¬ (0 ≤ z < Z.of_nat (n_vocab_of notes))%Z →
   Py.lookup_int (int_to_note notes) z = Py.Raise (Py.KeyError (Py.KInt z))).
Proof.
  split.
  - intros Hz. destruct (lookup_int_in_range notes z Hz) as (t & Ht & Hin).
    exists t. split_and!; [done| |done]. by apply lookup_int_Ok in Ht as [_ Ht].
  - intros Hz. destruct (decide (0 ≤ z)%Z) as [Hpos|Hneg].
    + apply lookup_int_out_of_range. lia.
    + unfold Py.lookup_int.
      destruct (int_to_note notes !! z) as [t|] eqn:Hl; [|done].
      apply int_to_note_lookup in Hl as [Hl _]. lia.
Qed.

Lemma int_to_note_getitem_witness :
  Py.lookup_int (int_to_note Samples.two_files_corpus) (-1)
  = Py.Raise (Py.KeyError (Py.KInt (-1))).
Proof.
  apply (proj2 (int_to_note_getitem Samples.two_files_corpus (-1))). lia.
Defined.

(** X2.  The two dictionaries are inverse to each other: the code that
    [note_to_int] gives a token of the corpus is a key of [int_to_note]
    that gives the token back, and the token under a key of [int_to_note]
    has that key as its code. *)
Theorem vocabulary_round_trip (notes : list string) :
  (∀ t, t ∈ notes →
        ∃ k, note_to_int notes !! t = Some k
             ∧ int_to_note notes !! Z.of_nat k = Some t) ∧
  (∀ z t, int_to_note notes !! z = Some t →
          (0 ≤ z)%Z ∧ note_to_int notes !! t = Some (Z.to_nat z)).
Proof.
  split.
  - intros t Ht. apply note_to_int_total in Ht as (k & Hk & _).
    exists k. split; [done|]. apply int_to_note_lookup.
    rewrite Nat2Z.id. split; [lia|]. by apply note_to_int_lookup.
  - intros z t Hz. apply int_to_note_lookup in Hz as [Hpos Hz].
    split; [done|]. by apply note_to_int_lookup.
Qed.

(** X3.  The vocabulary depends on the set of tokens only: two note lists
    with the same tokens, in whatever order and multiplicity, get the same
    [note_to_int], the same [int_to_note] and the same [n_vocab]. *)
Theorem vocabulary_depends_on_token_set (notes1 notes2 : list string) :
  (∀ t, t ∈ notes1 ↔ t ∈ notes2) →
  note_to_int notes1 = note_to_int notes2 ∧
  int_to_note notes1 = int_to_note notes2 ∧
  n_vocab_of notes1 = n_vocab_of notes2.
Proof.
  intros Hsame.
  assert (Py.set notes1 = Py.set notes2) as Hset.
  { apply set_eq. intros t. unfold Py.set. by rewrite !elem_of_list_to_set. }
  unfold note_to_int, int_to_note, n_vocab_of, pitchnames. by rewrite Hset.
Qed.

Lemma vocabulary_depends_on_token_set_witness :
  note_to_int ["D4"; "C4"; "D4"] = note_to_int ["C4"; "D4"].
Proof.
  apply (vocabulary_depends_on_token_set ["D4"; "C4"; "D4"] ["C4"; "D4"]).
  intros t. rewrite !elem_of_cons, !elem_of_nil. tauto.
Defined.

(** X4.  The codes follow the order of the tokens: of two tokens of the
    corpus, one has the smaller code exactly when it comes first in the
    lexicographic order of strings. *)
Theorem note_to_int_monotone (notes : list string) (t1 t2 : string) (k1 k2 : nat) :
  note_to_int notes !! t1 = Some k1 →
  note_to_int notes !! t2 = Some k2 →
  (k1 ≤ k2 ↔ String.le t1 t2).
Proof.
  rewrite !note_to_int_lookup. intros H1 H2.
  pose proof (pitchnames_sorted notes) as Hs.
  split.
  - intros Hle. destruct (decide (k1 = k2)) as [->|Hne].
    + rewrite H1 in H2. injection H2 as ->. done.
    + eapply (StronglySorted_lookup_lt String.le); [done..|lia].
  - intros Hle. destruct (decide (k1 ≤ k2)) as [|Hgt]; [done|].
    assert (String.le t2 t1) as Hge.
    { eapply (StronglySorted_lookup_lt String.le); [done..|lia]. }
    assert (t1 = t2) as -> by (by apply (anti_symm String.le)).
    pose proof (NoDup_lookup _ _ _ _ (pitchnames_NoDup notes) H1 H2). lia.
Qed.

Lemma note_to_int_monotone_witness : String.le "4.7" "C4".
Proof.
  apply (note_to_int_monotone Samples.two_files_corpus "4.7" "C4" 0 1);
    [reflexivity|reflexivity|lia].
Defined.

(** ** Encoding and decoding of indices *)

Lemma normalize_below_one (n_vocab k : nat) :
  k < n_vocab → (-1 <= normalize n_vocab k ∧ normalize n_vocab k < 1)%Q.
Proof.
  intros Hk. unfold normalize.
  assert (0 <= inject_Z (Z.of_nat k))%Q as H0.
  { change 0%Q with (inject_Z 0). rewrite <-Zle_Qle. lia. }
  assert (inject_Z (Z.of_nat k) < inject_Z (Z.of_nat n_vocab))%Q as H1.
  { rewrite <-Zlt_Qlt. lia. }
  assert (0 < inject_Z (Z.of_nat n_vocab) / 2)%Q as Hhalf.
  { apply Qlt_shift_div_l; [done|]. rewrite Qmult_0_l.
    change 0%Q with (inject_Z 0). rewrite <-Zlt_Qlt. lia. }
  generalize dependent (inject_Z (Z.of_nat k)).
  generalize dependent (inject_Z (Z.of_nat n_vocab)).
  intros size Hhalf index H0 H1.
  assert (size == 2 * (size / 2))%Q as Hsize by field.
  split.
  - apply Qle_shift_div_l; [done|]. lra.
  - apply Qlt_shift_div_r; [done|]. lra.
Qed.

(** X7.  The array [prepare_sequences] returns when it is given
    [n_vocab = len(set(notes))], as [train] does, has all its entries in
    the half-open interval [-1, 1). *)
Theorem prepare_sequences_entries_in_range (k : keras) (s : settings)
    (notes : list string) (X_train : list (list Q)) (y_train : list (list nat)) :
  prepare_sequences k s notes (n_vocab_of notes) = Py.Ok (X_train, y_train) →
  Forall (Forall (λ v, -1 <= v ∧ v < 1)%Q) X_train.
Proof.
  unfold prepare_sequences. rewrite encode_windows_Ok.
  cbn [mbind result_bind Py.bind fst snd]. unfold reshape.
  case_bool_decide; [|done]. cbn [mbind result_bind Py.bind].
  destruct (to_categorical k _) as [y|]; [|done]. intros [= <- _].
  unfold normalize_array. apply Forall_fmap, Forall_fmap, Forall_forall.
  intros i _. simpl. unfold window_codes.
  apply Forall_fmap, Forall_fmap, Forall_forall. intros t Ht. simpl.
  apply normalize_below_one. apply slice_subset in Ht.
  apply note_to_int_total in Ht as (c & Hc & Hlt).
  unfold code_of. by rewrite Hc.
Qed.

Lemma prepare_sequences_entries_in_range_witness :
  ∃ X_train y_train,
    prepare_sequences (Fixtures.trained []) Fixtures.window_2
      Samples.two_files_corpus (n_vocab_of Samples.two_files_corpus)
    = Py.Ok (X_train, y_train)
    ∧ Forall (Forall (λ v, -1 <= v ∧ v < 1)%Q) X_train.
Proof.
  eexists _, _. split; [vm_compute; reflexivity|].
  eapply (prepare_sequences_entries_in_range (Fixtures.trained []) Fixtures.window_2
            Samples.two_files_corpus).
  vm_compute. reflexivity.
Defined.

(** ** Writing the MIDI file *)

Section more_loop_facts.
Context {A B : Type}.


Lemma comprehension_length (f : A → Py.result B) (xs : list A) (ys : list B) :
  Py.comprehension f xs = Py.Ok ys → length ys = length xs.
Proof.
  revert ys. induction xs as [|x xs IH]; intros ys; simpl.
  - by intros [= <-].
  - destruct (f x); [|done]. destruct (Py.comprehension f xs); [|done].
    intros [= <-]. simpl. f_equal. by apply IH.
Qed.
End more_loop_facts.

Section more_create_midi_facts.
Context (s : settings).

Lemma create_midi_loop_app (xs ys : list string) : ∀ st,
  create_midi_loop s st (xs ++ ys) =
    match create_midi_loop s st xs with
    | (st', None) => create_midi_loop s st' ys
    | stopped => stopped
    end.
Proof.
  induction xs as [|x xs IH]; intros st; simpl; [done|].
  destruct (create_midi_step s st x); [apply IH|done].
Qed.

End more_create_midi_facts.

(** X8.  Where [create_midi] raises before anything is written: after
    items that are corpus tokens, an empty item raises [IndexError] (from
    [item[0]]) and an item that starts with a dot raises [ValueError] (from
    [int('')]), whatever the items after it. *)
Theorem create_midi_raises_before_write (s : settings)
    (before after : list string) (item filename : string) :
  Forall corpus_token before →
  (item = EmptyString →
   create_midi s (before ++ item :: after) filename = Py.Raise Py.IndexError) ∧
  (∀ rest, item = String "." rest →
   create_midi s (before ++ item :: after) filename
   = Py.Raise (Py.ValueError "invalid literal for int()")).
Proof.
  intros Hbefore.
  assert (Forall decodable before) as Hdec.
  { eapply Forall_impl; [done|]. apply corpus_token_decodable. }
  unfold create_midi. rewrite create_midi_loop_app.
  destruct (create_midi_loop_decodable s _ create_midi_init Hdec) as [o ->].
  split.
  - by intros ->.
  - by intros rest ->.
Qed.

Lemma create_midi_raises_before_write_witness :
  create_midi Fixtures.window_2 ["C4"; ".5"; "D4"] "out"
  = Py.Raise (Py.ValueError "invalid literal for int()").
Proof.
  assert (Forall corpus_token ["C4"]) as Hbefore.
  { apply Forall_cons_2; [|apply Forall_nil_2].
    left. exists "C"%char, "4". split; [reflexivity|].
    do 2 apply list_elem_of_further. apply list_elem_of_here. }
  apply (proj2 (create_midi_raises_before_write Fixtures.window_2
                  ["C4"] ["D4"] ".5" "out" Hbefore) "5").
  reflexivity.
Defined.

(** X9.  What comes back from a token of [get_notes]: the token of a note
    whose pitch name starts with a step letter is decoded to a note named
    by that letter alone (accidental and octave are dropped); the token of
    a chord whose first pitch class is [d <= 11] is decoded to a chord of
    one note numbered by the leading decimal digit of [d] (so 10 and 11
    come back as 1), whatever the other pitch classes are. *)
Theorem token_decoding (s : settings) (st : midi_state) (e : element) (t : string) :
  token_of e = Some t →
  match e with
  | Note (String c rest) =>
      step_letter c →
      create_midi_step s st t =
        Py.Ok {| offset := float_add s (offset st) (offset_increment s);
                 output_notes := output_notes st
                   ++ [OutNote (piano_note (PitchName (String c EmptyString))
                                           (offset st))] |}
  | Chord (d :: ds) =>
      d ≤ 11 →
      create_midi_step s st t =
        Py.Ok {| offset := float_add s (offset st) (offset_increment s);
                 output_notes := output_notes st
                   ++ [OutChord {| chord_notes :=
                                     [piano_note (PitchNumber (leading_digit d)) 0];
                                   chord_offset := offset st |}] |}
  | _ => True
  end.
Proof.
  destruct e as [[|c rest]|[|d ds]|]; try done; intros Ht.
  - assert (t = String c rest) as -> by (simpl in Ht; congruence).
    intros Hc. apply step_letter_not_digit in Hc as [Hdigit Hdot].
    rewrite create_midi_step_char by done.
    unfold first_char_decoding. by rewrite Hdigit.
  - assert (t = Py.join "." (Py.str d :: (Py.str <$> ds))) as ->
      by (by injection Ht as <-).
    intros Hd.
    assert (∃ c rest, Py.str d = String c rest
                      ∧ Py.digit_value c = Some (leading_digit d))
      as (c & rest & Hstr & Hc).
    { do 12 (destruct d as [|d]; [eexists _, _; split; reflexivity|]). lia. }
    destruct (join_head "." _ (Py.str <$> ds) c rest Hstr) as [rest' Hjoin].
    rewrite Hjoin, create_midi_step_char by (by eapply digit_is_not_dot).
    unfold first_char_decoding. by rewrite Hc.
Qed.

Lemma token_decoding_witness :
  create_midi_step Fixtures.window_2 create_midi_init "11.2.5" =
    Py.Ok {| offset := (0 + (1 # 2))%Q;
             output_notes :=
               [OutChord {| chord_notes := [piano_note (PitchNumber 1) 0];
                            chord_offset := 0 |}] |}.
Proof.
  apply (token_decoding Fixtures.window_2 create_midi_init (Chord [11; 2; 5])
           "11.2.5" eq_refl).
  lia.
Defined.

(** ** [generate] *)



(** ** The corpus scan, compositionally *)

(** X12.  Scanning a list of files is scanning its two halves one after
    the other: the notes are the concatenation, and the first exception of
    either half is the exception of the whole. *)
Theorem get_notes_app {Score} (m21 : music21 Score) (files1 files2 : list string) :
  get_notes m21 (files1 ++ files2) =
    (notes1 ← get_notes m21 files1;
     notes2 ← get_notes m21 files2;
     mret (notes1 ++ notes2)).
Proof.
  assert (∀ files acc,
            Py.for_each files (scan_file m21) acc =
            (notes ← Py.for_each files (scan_file m21) []; mret (acc ++ notes)))
    as Hfrom.
  { induction files as [|file files IH]; intros acc; simpl.
    - by rewrite app_nil_r.
    - unfold scan_file at 1 3.
      destruct (notes_to_parse m21 file) as [elements|e]; simpl; [|done].
      rewrite (IH (fold_left _ _ acc)), (IH (fold_left _ _ [])).
      rewrite !append_tokens. simpl.
      destruct (Py.for_each files (scan_file m21) []); simpl; [|done].
      by rewrite app_assoc. }
  unfold get_notes. rewrite for_each_app.
  destruct (Py.for_each files1 (scan_file m21) []) as [notes1|e]; simpl; [|done].
  apply Hfrom.
Qed.

(** ** Training *)

Section more_train_facts.
Context (k : keras).

Lemma run_bind_Ok {A B} (r : run A) (f : A → run B) (b : B) :
  outcome (r ≫= f) = Py.Ok b →
  ∃ a, outcome r = Py.Ok a ∧ outcome (f a) = Py.Ok b.
Proof.
  unfold mbind, run_bind. destruct (outcome r) as [a|e]; simpl; [|done].
  intros Hf. by exists a.
Qed.

Lemma train_epoch_Ok (X_train : list (list Q)) (batch_size sample_interval : nat)
    (self self' : GAN) (epoch : nat) :
  train_epoch k X_train batch_size sample_interval self epoch = Py.Ok self' →
  sample_interval ≠ 0 ∧
  seq_length self' = seq_length self ∧
  ((epoch `mod` sample_interval = 0 ∧
    ∃ d g, disc_loss self' = disc_loss self ++ [d]
           ∧ gen_loss self' = gen_loss self ++ [g]) ∨
   (epoch `mod` sample_interval ≠ 0 ∧ self' = self)).
Proof.
  unfold train_epoch.
  destruct (randint k epoch (length X_train) batch_size) as [idx|]; [|done].
  cbn [mbind result_bind Py.bind].
  destruct (Py.comprehension _ idx) as [real_seqs|]; [|done].
  cbn [mbind result_bind Py.bind].
  destruct (train_on_batches k epoch real_seqs) as [losses|]; [|done].
  cbn [mbind result_bind Py.bind].
  case_bool_decide as Hzero; [done|]. case_bool_decide as Hmod.
  - intros [= <-]. simpl. split_and!; [done..|]. left. eauto.
  - intros [= <-]. split_and!; [done..|]. by right.
Qed.

Lemma epochs_Ok (X_train : list (list Q)) (batch_size sample_interval : nat)
    (n : nat) : ∀ a (self self' : GAN),
  outcome (for_each_run (seq a n)
             (λ self epoch,
                enter (TrainingEpoch epoch)
                  (train_epoch k X_train batch_size sample_interval self epoch))
             self) = Py.Ok self' →
  (1 ≤ n → sample_interval ≠ 0) ∧
  seq_length self' = seq_length self ∧
  disc_loss self `prefix_of` disc_loss self' ∧
  gen_loss self `prefix_of` gen_loss self' ∧
  length (disc_loss self') =
    length (disc_loss self)
    + length (filter (λ epoch, epoch `mod` sample_interval = 0) (seq a n)) ∧
  length (gen_loss self') =
    length (gen_loss self)
    + length (filter (λ epoch, epoch `mod` sample_interval = 0) (seq a n)).
Proof.
  induction n as [|n IH]; intros a self self'; simpl.
  - intros [= <-]. split_and!; [lia|done..|simpl; lia|simpl; lia].
  - intros Hrun. apply run_bind_Ok in Hrun as (self1 & Hepoch & Hrest).
    simpl in Hepoch. apply train_epoch_Ok in Hepoch as (Hsi & Hrows & Hlog).
    apply IH in Hrest as (_ & Hrows' & Hd & Hg & Hdl & Hgl).
    rewrite filter_cons. split; [done|].
    destruct Hlog as [(Hmod & d & g & Hd1 & Hg1)|[Hmod ->]].
    + rewrite decide_True by done. rewrite Hd1 in Hd, Hdl. rewrite Hg1 in Hg, Hgl.
      rewrite length_app in Hdl, Hgl. simpl in *.
      split_and!; [congruence|by eapply prefix_app_l|by eapply prefix_app_l|lia|lia].
    + rewrite decide_False by done. done.
Qed.

Lemma generate_Ok (s : settings) (notes : list string) (written : midi_file) :
  generate k s notes = Py.Ok written →
  midi_path written = "static/ganOutputs/ganOutput.mid" ∧
  length (midi_stream written) = length (predictions_0 k).
Proof.
  unfold generate.
  destruct (Py.comprehension _ _) as [pred_notes|] eqn:Hdecode; [|done].
  cbn [mbind result_bind Py.bind]. unfold create_midi.
  destruct (create_midi_loop s create_midi_init pred_notes) as [st [e|]] eqn:Hloop;
    [done|].
  intros [= <-]. simpl. split; [done|].
  rewrite (create_midi_loop_length s _ _ _ Hloop). simpl.
  apply comprehension_length in Hdecode. by rewrite Hdecode, length_fmap.
Qed.

Lemma train_Ok {Score} (m21 : music21 Score) (s : settings) (files : list string)
    (self self' : GAN) (epochs batch_size sample_interval : nat)
    (written : midi_file) :
  outcome (train m21 k s files self epochs batch_size sample_interval)
  = Py.Ok (self', written) →
  (1 ≤ epochs → sample_interval ≠ 0) ∧
  seq_length self' = seq_length self ∧
  disc_loss self `prefix_of` disc_loss self' ∧
  gen_loss self `prefix_of` gen_loss self' ∧
  length (disc_loss self') =
    length (disc_loss self) + length (logged_epochs epochs sample_interval) ∧
  length (gen_loss self') =
    length (gen_loss self) + length (logged_epochs epochs sample_interval) ∧
  ∃ notes, get_notes m21 files = Py.Ok notes ∧ generate k s notes = Py.Ok written.
Proof.
  unfold train. intros Hrun.
  apply run_bind_Ok in Hrun as (notes & Hnotes & Hrun).
  apply run_bind_Ok in Hrun as (n_vocab & _ & Hrun).
  apply run_bind_Ok in Hrun as (prepared & _ & Hrun).
  apply run_bind_Ok in Hrun as (self1 & Hloop & Hrun).
  apply run_bind_Ok in Hrun as (written1 & Hgen & Hrun).
  apply run_bind_Ok in Hrun as (? & _ & Hrun).
  simpl in Hnotes, Hgen, Hrun. injection Hrun as <- <-.
  apply epochs_Ok in Hloop as (Hsi & Hrows & Hd & Hg & Hdl & Hgl).
  unfold logged_epochs, Py.range. split_and!; [done..|]. by exists notes.
Qed.
End more_train_facts.

(** X13.  A run of [train] that returns leaves [seq_length] as it was and
    only appends to the two loss lists, in step: each gains one entry per
    epoch divisible by [sample_interval], and the file it wrote is the one
    [generate] made from the scanned notes. *)
Theorem train_records_losses {Score} (m21 : music21 Score) (k : keras)
    (s : settings) (files : list string) (self self' : GAN)
    (epochs batch_size sample_interval : nat) (written : midi_file) :
  outcome (train m21 k s files self epochs batch_size sample_interval)
  = Py.Ok (self', written) →
  seq_length self' = seq_length self ∧
  disc_loss self `prefix_of` disc_loss self' ∧
  gen_loss self `prefix_of` gen_loss self' ∧
  length (disc_loss self') =
    length (disc_loss self) + length (logged_epochs epochs sample_interval) ∧
  length (gen_loss self') =
    length (gen_loss self) + length (logged_epochs epochs sample_interval) ∧
  ∃ notes, get_notes m21 files = Py.Ok notes ∧ generate k s notes = Py.Ok written.
Proof. intros Hrun. by apply train_Ok in Hrun as (_ & Hrest). Qed.

Lemma train_records_losses_witness :
  ∃ gan written,
    outcome (train Fixtures.partitioned (Fixtures.trained Samples.low_outputs)
               Fixtures.window_2 ["a.mid"] Fixtures.fresh_gan 5 4 2)
    = Py.Ok (gan, written)
    ∧ length (disc_loss gan) = 3.
Proof.
  destruct (outcome (train Fixtures.partitioned (Fixtures.trained Samples.low_outputs)
                       Fixtures.window_2 ["a.mid"] Fixtures.fresh_gan 5 4 2))
    as [[gan written]|] eqn:Hrun; [|vm_compute in Hrun; discriminate Hrun].
  exists gan, written. split; [reflexivity|].
  destruct (train_records_losses _ _ _ _ _ _ _ _ _ _ Hrun) as (_ & _ & _ & Hd & _).
  rewrite Hd. reflexivity.
Defined.

(** X14.  With [sample_interval = 0] and at least one epoch, [train] never
    returns: in the first epoch, once the batch has been drawn and the three
    [train_on_batch] calls have been made, [epoch % sample_interval] raises
    [ZeroDivisionError]. *)
Theorem train_zero_sample_interval {Score} (m21 : music21 Score) (k : keras)
    (s : settings) (files : list string) (self : GAN) (epochs batch_size : nat) :
  (1 ≤ epochs →
   Py.is_ok (outcome (train m21 k s files self epochs batch_size 0)) = false) ∧
  (∀ X_train epoch idx real_seqs losses,
     randint k epoch (length X_train) batch_size = Py.Ok idx →
     Py.comprehension (Py.getitem X_train) idx = Py.Ok real_seqs →
     train_on_batches k epoch real_seqs = Py.Ok losses →
     train_epoch k X_train batch_size 0 self epoch = Py.Raise Py.ZeroDivisionError).
Proof.
  split.
  - intros Hepochs.
    destruct (outcome (train m21 k s files self epochs batch_size 0))
      as [[self' written]|] eqn:Hrun; [|done].
    apply train_Ok in Hrun as (Hsi & _). by destruct (Hsi Hepochs).
  - intros X_train epoch idx real_seqs losses Hidx Hreal Hlosses.
    unfold train_epoch. rewrite Hidx. cbn [mbind result_bind Py.bind].
    rewrite Hreal. cbn [mbind result_bind Py.bind]. by rewrite Hlosses.
Qed.

Lemma train_zero_sample_interval_witness :
  Py.is_ok (outcome (train Fixtures.partitioned (Fixtures.trained Samples.low_outputs)
                       Fixtures.window_2 ["a.mid"] Fixtures.fresh_gan 3 4 0))
  = false.
Proof.
  apply (proj1 (train_zero_sample_interval Fixtures.partitioned
                  (Fixtures.trained Samples.low_outputs)
                  Fixtures.window_2 ["a.mid"] Fixtures.fresh_gan 3 4)).
  lia.
Defined.

(** X15.  A corpus no longer than the window gives no training window:
    [prepare_sequences] hands [to_categorical] the empty list, and the
    exception that call raises ends [train] in the sequence windowing,
    before any epoch. *)
Theorem short_corpus (k : keras) (s : settings) (notes : list string) :
  length notes ≤ length_ s →
  (∀ n_vocab,
     prepare_sequences k s notes n_vocab =
       (y_train ← to_categorical k []; mret ([], y_train))) ∧
  (∀ Score (m21 : music21 Score) files self epochs batch_size sample_interval e,
     get_notes m21 files = Py.Ok notes →
     to_categorical k [] = Py.Raise e →
     train m21 k s files self epochs batch_size sample_interval =
       Run [CorpusScan; VocabularyBuild; SequenceWindowing] (Py.Raise e)).
Proof.
  intros Hshort.
  assert (∀ n_vocab,
            prepare_sequences k s notes n_vocab =
              (y_train ← to_categorical k []; mret ([], y_train))) as Hprepare.
  { intros n_vocab. unfold prepare_sequences. rewrite encode_windows_Ok.
    replace (length notes - length_ s) with 0 by lia. reflexivity. }
  split; [done|].
  intros Score m21 files self epochs batch_size sample_interval e Hnotes Hraise.
  unfold train. rewrite Hnotes, !run_bind_enter_Ok, Hprepare, Hraise.
  cbn [mbind result_bind Py.bind]. by rewrite run_bind_enter_Raise.
Qed.

Lemma short_corpus_witness :
  train Fixtures.partitioned (Fixtures.trained []) default_settings ["a.mid"]
    (new_GAN 200) 5 32 1
  = Run [CorpusScan; VocabularyBuild; SequenceWindowing]
        (Py.Raise (Py.ValueError "zero-size array")).
Proof.
  apply (proj2 (short_corpus (Fixtures.trained []) default_settings
                  Samples.two_files_corpus ltac:(simpl; lia))
           _ Fixtures.partitioned ["a.mid"] (new_GAN 200) 5 32 1
           (Py.ValueError "zero-size array")); reflexivity.
Defined.

(** ** The entry points *)

(** X16.  A call of [runGan(l, off_inc, a)] that returns has trained a GAN
    of [l] rows for 5 epochs and recorded 5 discriminator and 5 generator
    losses; the [__main__] block records 200 of each for 200 rows.  Both
    write [static/ganOutputs/ganOutput.mid] with one element per generator
    output. *)
Theorem entry_points_record_every_epoch {Score} (m21 : music21 Score) (k : keras)
    (files : list string) :
  (∀ l off_inc a gan written,
     outcome (runGan m21 k files l off_inc a) = Py.Ok (gan, written) →
     seq_length gan = l ∧
     length (disc_loss gan) = 5 ∧ length (gen_loss gan) = 5 ∧
     midi_path written = "static/ganOutputs/ganOutput.mid" ∧
     length (midi_stream written) = length (predictions_0 k)) ∧
  (∀ gan written,
     outcome (main m21 k files) = Py.Ok (gan, written) →
     seq_length gan = 200 ∧
     length (disc_loss gan) = 200 ∧ length (gen_loss gan) = 200 ∧
     midi_path written = "static/ganOutputs/ganOutput.mid" ∧
     length (midi_stream written) = length (predictions_0 k)).
Proof.
  assert (∀ epochs, length (logged_epochs epochs 1) = epochs) as Hall.
  { intros epochs. unfold logged_epochs, Py.range.
    rewrite filter_keep_all, length_seq; [done|].
    apply Forall_forall. intros epoch _. apply Nat.mod_1_r. }
  split.
  - intros l off_inc a gan written Hrun. unfold runGan in Hrun.
    apply train_Ok in Hrun
      as (_ & Hrows & _ & _ & Hd & Hg & notes & _ & Hgen).
    apply generate_Ok in Hgen as [Hpath Hlen].
    rewrite Hall in Hd, Hg. simpl in *. done.
  - intros gan written Hrun. unfold main in Hrun.
    apply train_Ok in Hrun
      as (_ & Hrows & _ & _ & Hd & Hg & notes & _ & Hgen).
    apply generate_Ok in Hgen as [Hpath Hlen].
    rewrite Hall in Hd, Hg. simpl in *. done.
Qed.

Lemma entry_points_record_every_epoch_witness :
  ∃ gan written,
    outcome (runGan Fixtures.partitioned (Fixtures.trained Samples.low_outputs)
               ["a.mid"] 2 (1 # 2) (1 # 5))
    = Py.Ok (gan, written)
    ∧ length (disc_loss gan) = 5.
Proof.
  destruct (outcome (runGan Fixtures.partitioned
                       (Fixtures.trained Samples.low_outputs)
                       ["a.mid"] 2 (1 # 2) (1 # 5)))
    as [[gan written]|] eqn:Hrun; [|vm_compute in Hrun; discriminate Hrun].
  exists gan, written. split; [reflexivity|].
  by destruct (proj1 (entry_points_record_every_epoch _ _ _) _ _ _ _ _ Hrun)
    as (_ & Hd & _).
Defined.

(** ** Windows and tokens, end to end *)

Lemma window_codes_shift (s : settings) (notes : list string) (i : nat) :
  1 ≤ length_ s → S i + length_ s ≤ length notes →
  window_codes s notes (S i) =
    drop 1 (window_codes s notes i) ++ [successor_code s notes i].
Proof.
  intros HL Hi. unfold window_codes, successor_code, Py.slice.
  destruct (length_ s) as [|L] eqn:HLs; [lia|].
  replace (S i + S L - S i) with (S L) by lia.
  replace (i + S L - i) with (S L) by lia.
  destruct (lookup_lt_is_Some_2 notes (i + S L)) as [t Ht]; [lia|].
  rewrite Ht. simpl default.
  rewrite (take_S_r (drop (S i) notes) L t).
  2:{ rewrite lookup_drop. rewrite <-Ht. f_equal. lia. }
  rewrite fmap_app, <-fmap_drop. simpl. f_equal. f_equal.
  change (S L) with (1 + L).
  rewrite <-(take_drop_commute (drop i notes) L 1), drop_drop.
  by replace (i + 1) with (S i) by lia.
Qed.

(** X17.  Consecutive windows overlap in all but one position: window
    [i + 1] is window [i] without its first code, followed by output [i]. *)
Theorem windows_slide_by_one (s : settings) (notes : list string)
    (network_input : list (list nat)) (network_output : list nat)
    (i : nat) (window next : list nat) (code : nat) :
  1 ≤ length_ s →
  encode_windows s notes = Py.Ok (network_input, network_output) →
  network_input !! i = Some window →
  network_input !! S i = Some next →
  network_output !! i = Some code →
  next = drop 1 window ++ [code].
Proof.
  intros HL. rewrite encode_windows_Ok. intros [= <- <-].
  unfold Py.range. rewrite !list_lookup_fmap.
  intros Hw Hn Hc.
  destruct (seq 0 (length notes - length_ s) !! S i) as [j|] eqn:Hj; [|done].
  apply lookup_seq in Hj as [-> Hlt].
  rewrite !lookup_seq_lt in Hw, Hc by lia.
  simpl in Hw, Hn, Hc. injection Hw as <-. injection Hn as <-. injection Hc as <-.
  apply window_codes_shift; lia.
Qed.

Lemma windows_slide_by_one_witness : [2; 0] = drop 1 [1; 2] ++ [0].
Proof.
  apply (windows_slide_by_one Fixtures.window_2 Samples.two_files_corpus
           [[1; 2]; [2; 0]] [0; 1] 0 [1; 2] [2; 0] 0);
    [simpl; lia|reflexivity..].
Defined.
